(** * s3-public-alerts: the CloudTrail handler of [lambda_function.py]

    A shallow embedding of the Lambda handler that scans CloudTrail records
    for S3 operations exposing buckets or objects publicly, and the
    properties of its classifier, composer and dispatch loop.

    The handler works on JSON-decoded Python values, so the embedding has
    a type of such values and the handful of Python operations the source
    applies to them ([x[k]], [k in x], [x == 's'], [for v in x], string
    [+], [str.replace], [str.join]), each with the exceptions Python 3
    raises.  Effects ([print], the S3 read, the SNS publication) are logged
    in a trace; an exception aborts the run and keeps the trace so far. *)

From Stdlib Require Import String Ascii List Bool ZArith.
Import ListNotations.
Open Scope string_scope.
Open Scope list_scope.

Set Implicit Arguments.

(** ** Values *)

(** What [json.loads] returns: [None], [bool], [int], [float] (a finite
    binary float, mantissa and exponent), [str], [list] and [dict].  A
    dict keeps its items in insertion order; looking a key up takes its
    first item. *)
#[warnings="-register-all"]
Inductive json : Type :=
| JNull
| JBool (b : bool)
| JInt (n : Z)
| JFloat (m e : Z)
| JStr (s : string)
| JList (l : list json)
| JDict (items : list (string * json)).

(** The exceptions the handler can meet.  [ClientError] is the failure of
    one of the two remote calls (for S3, also a body that [load_json]
    cannot gunzip or parse); [UnicodeEncodeError] is what [print] raises
    on a text the output stream cannot encode. *)
Inductive exn : Type :=
| KeyError (key : string)
| TypeError
| UnboundLocalError (var : string)
| UnicodeEncodeError
| ClientError (service : string).

Inductive outcome (A : Type) : Type :=
| Ok (a : A)
| Raise (e : exn).
Arguments Ok {A} a.
Arguments Raise {A} e.



(** ** The error monad of expressions *)

Definition obind {A B} (o : outcome A) (f : A -> outcome B) : outcome B :=
  match o with
  | Ok a => f a
  | Raise e => Raise e
  end.

Declare Scope py_scope.
Delimit Scope py_scope with py.
Notation "x <- c1 ;; c2" := (obind c1 (fun x => c2))
  (at level 61, c1 at next level, right associativity) : py_scope.
Notation "' p <- c1 ;; c2" :=
  (obind c1 (fun x => match x with p => c2 end))
  (at level 61, p pattern, c1 at next level, right associativity) : py_scope.
Open Scope py_scope.

(** ** Python operations on values *)

Fixpoint lookup (k : string) (items : list (string * json)) : option json :=
  match items with
  | [] => None
  | (k', v) :: rest => if String.eqb k k' then Some v else lookup k rest
  end.

Definition has_key (k : string) (items : list (string * json)) : bool :=
  match lookup k items with
  | Some _ => true
  | None => false
  end.

(** [needle in hay] for two strings: some suffix of [hay] starts with
    [needle]. *)
Fixpoint contains (needle hay : string) : bool :=
  String.prefix needle hay
  || match hay with
     | EmptyString => false
     | String _ rest => contains needle rest
     end.

(** [v == 's'] for a string literal: never raises, and holds only of the
    same string. *)
Definition py_eq_str (v : json) (s : string) : bool :=
  match v with
  | JStr s' => String.eqb s' s
  | _ => false
  end.

(** [v[k]] for a string literal [k]. *)
Definition py_getitem (v : json) (k : string) : outcome json :=
  match v with
  | JDict items =>
      match lookup k items with
      | Some x => Ok x
      | None => Raise (KeyError k)
      end
  | _ => Raise TypeError
  end.

(** ['s' in v]: substring of a string, element of a list, key of a dict;
    other values are not containers. *)
Definition py_in (s : string) (v : json) : outcome bool :=
  match v with
  | JStr hay => Ok (contains s hay)
  | JList l => Ok (existsb (fun x => py_eq_str x s) l)
  | JDict items => Ok (has_key s items)
  | _ => Raise TypeError
  end.

Fixpoint chars (s : string) : list json :=
  match s with
  | EmptyString => []
  | String c rest => JStr (String c EmptyString) :: chars rest
  end.

(** The values [for x in v] runs through. *)
Definition py_iter (v : json) : outcome (list json) :=
  match v with
  | JList l => Ok l
  | JDict items => Ok (map (fun kv => JStr (fst kv)) items)
  | JStr s => Ok (chars s)
  | _ => Raise TypeError
  end.

(** A value used where a [str] is required ([+], [replace], [join]). *)
Definition py_str_arg (v : json) : outcome string :=
  match v with
  | JStr s => Ok s
  | _ => Raise TypeError
  end.

(** [if not isinstance(v, list): v = [v]] *)
Definition as_list (v : json) : list json :=
  match v with
  | JList l => l
  | _ => [v]
  end.

(** [s.replace(old, new)] for a non-empty [old]: every occurrence, left
    to right, without overlap.  [skip] counts the characters of a matched
    occurrence still to drop. *)
Fixpoint replace_from (old new : string) (skip : nat) (s : string) : string :=
  match s with
  | EmptyString => EmptyString
  | String c rest =>
      match skip with
      | S n => replace_from old new n rest
      | O =>
          if String.prefix old s
          then (new ++ replace_from old new (String.length old - 1) rest)%string
          else String c (replace_from old new O rest)
      end
  end.

Definition replace (s old new : string) : string := replace_from old new 0 s.

(** [sep.join(items)]: every item must be a [str]. *)
Fixpoint str_items (items : list json) : outcome (list string) :=
  match items with
  | [] => Ok []
  | v :: rest =>
      s <- py_str_arg v ;;
      ss <- str_items rest ;;
      Ok (s :: ss)
  end.

Definition py_join (sep : string) (items : list json) : outcome string :=
  ss <- str_items items ;;
  Ok (String.concat sep ss).

(** A local variable is unbound until its first assignment. *)
Definition read_local (var : string) (slot : option json) : outcome json :=
  match slot with
  | Some v => Ok v
  | None => Raise (UnboundLocalError var)
  end.

(** ** Effects *)

Inductive effect : Type :=
| Print (line : string)
| GetObject (bucket key : string)
| Publish (topic subject message : string).

(** A command yields the effects it performed and how it ended. *)
Definition cmd (A : Type) : Type := (list effect * outcome A)%type.

Definition ret {A} (a : A) : cmd A := ([], Ok a).

Definition bind {A B} (c : cmd A) (f : A -> cmd B) : cmd B :=
  match c with
  | (t, Ok a) => let (t', r) := f a in (t ++ t', r)
  | (t, Raise e) => (t, Raise e)
  end.

Definition lift {A} (o : outcome A) : cmd A := ([], o).

Definition emit (e : effect) : cmd unit := ([e], Ok tt).

Notation "x <<- c1 ;; c2" := (bind c1 (fun x => c2))
  (at level 61, c1 at next level, right associativity) : py_scope.
Notation "c1 ;;; c2" := (bind c1 (fun _ => c2))
  (at level 61, right associativity) : py_scope.

(** [for x in l: body(x)] *)
Fixpoint for_each (body : json -> cmd unit) (l : list json) : cmd unit :=
  match l with
  | [] => ret tt
  | x :: rest => body x ;;; for_each body rest
  end.

Definition trace {A} (c : cmd A) : list effect := fst c.
Definition result {A} (c : cmd A) : outcome A := snd c.

(** ** The handler *)

(** What the handler takes from its surroundings: the topic read from the
    process environment, Python's [str] of a record (it only feeds a log
    line), whether the output stream can encode a line (a text with a lone
    surrogate, which JSON allows, cannot be encoded), the S3 read together
    with [load_json] (the gunzipped, parsed log, if there is one), and
    whether SNS accepts a publication. *)
Record environment : Type := {
  sns_topic_arn : string;
  py_str : json -> string;
  stdout_accepts : string -> bool;
  s3_get_object : string -> string -> option json;
  sns_publish : string -> string -> string -> bool
}.

(** [print(line)] for a line holding text of the event: it raises when the
    stream cannot encode the line, and nothing is written then. *)
Definition print_line (env : environment) (line : string) : cmd unit :=
  if stdout_accepts env line
  then emit (Print line)
  else lift (Raise UnicodeEncodeError).

(** The outcome of a remote call. *)
Definition remote {A} (service : string) (response : option A) : outcome A :=
  match response with
  | Some a => Ok a
  | None => Raise (ClientError service)
  end.

Definition sns_subject : string := "Public S3 bucket/object alert".
Definition sns_message : string :=
  "User {{user}} via {{invoke}} call has just {{bucket_or_object}} with {{operations}} public access".

Definition all_users : string := "/global/AllUsers".

(** *** Alert composer *)

(** The loop of [get_object_arn]: the ARN of the first resource of type
    object, [None] when the loop runs out. *)
Fixpoint first_object_arn (resources : list json) : outcome json :=
  match resources with
  | [] => Ok JNull
  | resource :: rest =>
      ty <- py_getitem resource "type" ;;
      if py_eq_str ty "AWS::S3::Object"
      then py_getitem resource "ARN"
      else first_object_arn rest
  end.

Definition get_object_arn (record : json) : outcome json :=
  present <- py_in "resources" record ;;
  if present
  then
    resources <- py_getitem record "resources" ;;
    l <- py_iter resources ;;
    first_object_arn l
  else Ok JNull.

(** The source reads [record['userAgent']] again in each comparison; it
    is the same value every time. *)
Definition get_invoke_form (record : json) : outcome string :=
  ua <- py_getitem record "userAgent" ;;
  if py_eq_str ua "signin.amazonaws.com" || py_eq_str ua "console.amazonaws.com"
  then Ok "Console"
  else if py_eq_str ua "lambda.amazonaws.com"
  then Ok "Lambda"
  else Ok "API".

Definition get_public_access (public_write public_read : bool) : string :=
  let messages := [] in
  let messages := if public_read then messages ++ ["READ"] else messages in
  let messages := if public_write then messages ++ ["WRITE"] else messages in
  String.concat " and " messages.

Definition get_resource_access (event_name bucket_name object_arn : json)
  : outcome string :=
  let messages := [] in
  let messages :=
    if py_eq_str event_name "CreateBucket" || py_eq_str event_name "PutObject"
    then messages ++ [JStr "created"]
    else messages ++ [JStr "changed"] in
  let messages :=
    match object_arn with
    | JNull => messages ++ [JStr "bucket"; bucket_name]
    | _ => messages ++ [object_arn; JStr "at bucket"; bucket_name]
    end in
  py_join " " messages.

Section Handler.

Variable env : environment.

(** The first line printed holds the event name, one of four literals on
    every call the handler makes, and [str] of the record, in which Python
    escapes what the stream cannot encode: that [print] does not fail.  The
    second line holds the user name, the ARN and the bucket name as they
    came. *)
Definition publish_alert (record event_name : json) (public_write public_read : bool)
  : cmd unit :=
  user_name <<- lift (ui <- py_getitem record "userIdentity" ;;
                      py_getitem ui "userName") ;;
  invoke_form <<- lift (get_invoke_form record) ;;
  bucket_name <<- lift (rp <- py_getitem record "requestParameters" ;;
                        py_getitem rp "bucketName") ;;
  object_arn <<- lift (get_object_arn record) ;;
  found <<- lift (name <- py_str_arg event_name ;;
                  Ok ("Found public S3 event [" ++ name ++ "] on record ["
                      ++ py_str env record ++ "]")%string) ;;
  emit (Print found) ;;;
  pub_message <<- lift (
    user <- py_str_arg user_name ;;
    let m := replace sns_message "{{user}}" user in
    let m := replace m "{{invoke}}" invoke_form in
    let m := replace m "{{operations}}" (get_public_access public_write public_read) in
    resource <- get_resource_access event_name bucket_name object_arn ;;
    Ok (replace m "{{bucket_or_object}}" resource)) ;;
  print_line env ("Alert [" ++ pub_message ++ "] sent to SNS topic ["
                  ++ sns_topic_arn env ++ "]")%string ;;;
  emit (Publish (sns_topic_arn env) sns_subject pub_message) ;;;
  lift (remote "sns"
          (if sns_publish env (sns_topic_arn env) sns_subject pub_message
           then Some tt else None)).

(** *** Access classifier, Rule A *)

(** One turn of the loop over the canned ACL values. *)
Definition canned_step (d : bool * bool) (acl_header : json) : bool * bool :=
  let (public_read, public_write) := d in
  let public_read :=
    if py_eq_str acl_header "public-read" || py_eq_str acl_header "public-read-write"
    then true else public_read in
  let public_write :=
    if py_eq_str acl_header "public-read-write" then true else public_write in
  (public_read, public_write).

(** ['h' in acl and '/global/AllUsers' in acl['h']] *)
Definition header_is_public (acl : json) (header : string) : outcome bool :=
  present <- py_in header acl ;;
  if present
  then v <- py_getitem acl header ;; py_in all_users v
  else Ok false.

(** Lines 68 to 94 of [handle_create]: the pair (public_read,
    public_write) the final test reads.  [record['requestParameters']]
    and its [accessControlList] are read once here; the source reads them
    again at every use, with the same result. *)
Definition create_decision (record : json) : outcome (bool * bool) :=
  let d := (false, false) in
  rp <- py_getitem record "requestParameters" ;;
  has_acl <- py_in "x-amz-acl" rp ;;
  d <- (if has_acl
        then
          acl_headers <- py_getitem rp "x-amz-acl" ;;
          Ok (fold_left canned_step (as_list acl_headers) d)
        else Ok d) ;;
  has_list <- py_in "accessControlList" rp ;;
  if has_list
  then
    acl <- py_getitem rp "accessControlList" ;;
    let (public_read, public_write) := d in
    r <- header_is_public acl "x-amz-grant-read" ;;
    let public_read := if r then true else public_read in
    r <- header_is_public acl "x-amz-grant-read-acp" ;;
    let public_read := if r then true else public_read in
    w <- header_is_public acl "x-amz-grant-write" ;;
    let public_write := if w then true else public_write in
    w <- header_is_public acl "x-amz-grant-write-acp" ;;
    let public_write := if w then true else public_write in
    Ok (public_read, public_write)
  else Ok d.

Definition handle_create (record event_name : json) : cmd unit :=
  d <<- lift (create_decision record) ;;
  let (public_read, public_write) := d in
  if public_read || public_write
  then publish_alert record event_name public_write public_read
  else ret tt.

(** *** Access classifier, Rule B *)

(** One turn of the loop over the grants. *)
Definition grant_step (d : bool * bool) (grantee : json) : outcome (bool * bool) :=
  let (public_read, public_write) := d in
  has_grantee <- py_in "Grantee" grantee ;;
  if has_grantee
  then
    g <- py_getitem grantee "Grantee" ;;
    has_uri <- py_in "URI" g ;;
    to_all <- (if has_uri
               then uri <- py_getitem g "URI" ;; py_in all_users uri
               else Ok false) ;;
    if to_all
    then
      permission <- py_getitem grantee "Permission" ;;
      if py_eq_str permission "READ" || py_eq_str permission "READ_ACP"
      then Ok (true, public_write)
      else if py_eq_str permission "WRITE" || py_eq_str permission "WRITE_ACP"
      then Ok (public_read, true)
      else Ok d
    else Ok d
  else Ok d.

Fixpoint scan_grants (grant_list : list json) (d : bool * bool)
  : outcome (bool * bool) :=
  match grant_list with
  | [] => Ok d
  | grantee :: rest => d' <- grant_step d grantee ;; scan_grants rest d'
  end.

(** Lines 101 to 115 of [handle_change]. *)
Definition change_decision (record : json) : outcome (bool * bool) :=
  let d := (false, false) in
  rp <- py_getitem record "requestParameters" ;;
  has_policy <- py_in "AccessControlPolicy" rp ;;
  if has_policy
  then
    policy <- py_getitem rp "AccessControlPolicy" ;;
    acl <- py_getitem policy "AccessControlList" ;;
    grant_list <- py_getitem acl "Grant" ;;
    scan_grants (as_list grant_list) d
  else Ok d.

Definition handle_change (record event_name : json) : cmd unit :=
  d <<- lift (change_decision record) ;;
  let (public_read, public_write) := d in
  if public_read || public_write
  then publish_alert record event_name public_write public_read
  else ret tt.

(** *** Dispatch loop *)

(** The body of the loop over the records of the log. *)
Definition dispatch_record (record : json) : cmd unit :=
  source <<- lift (py_getitem record "eventSource") ;;
  gate <<- lift (if py_eq_str source "s3.amazonaws.com"
                 then py_in "requestParameters" record
                 else Ok false) ;;
  if gate
  then
    event_name <<- lift (py_getitem record "eventName") ;;
    if py_eq_str event_name "CreateBucket" || py_eq_str event_name "PutObject"
    then handle_create record event_name
    else if py_eq_str event_name "PutBucketAcl" || py_eq_str event_name "PutObjectAcl"
    then handle_change record event_name
    else ret tt
  else ret tt.

(** The first loop of [lambda_handler]: each item assigns the locals
    [bucket] and [key]. *)
Fixpoint bind_location (items : list json) (locals : option json * option json)
  : outcome (option json * option json) :=
  match items with
  | [] => Ok locals
  | item :: rest =>
      s3 <- py_getitem item "s3" ;;
      b <- py_getitem s3 "bucket" ;;
      bucket <- py_getitem b "name" ;;
      s3 <- py_getitem item "s3" ;;
      o <- py_getitem s3 "object" ;;
      key <- py_getitem o "key" ;;
      bind_location rest (Some bucket, Some key)
  end.

(** Lines 52 to 59 of [lambda_handler]: the scan of the fetched log. *)
Definition scan_log (trail_json : json) : cmd unit :=
  has_records <<- lift (py_in "Records" trail_json) ;;
  if has_records
  then
    records <<- lift (r <- py_getitem trail_json "Records" ;; py_iter r) ;;
    for_each dispatch_record records
  else ret tt.

Definition lambda_handler (event : json) : cmd unit :=
  locals <<- lift (records <- py_getitem event "Records" ;;
                   items <- py_iter records ;;
                   bind_location items (None, None)) ;;
  let (bucket, key) := locals in
  location <<- lift (b <- read_local "bucket" bucket ;;
                     b <- py_str_arg b ;;
                     k <- read_local "key" key ;;
                     k <- py_str_arg k ;;
                     Ok (b, k)) ;;
  let (bucket, key) := location in
  print_line env ("S3 bucket [" ++ bucket ++ "] object event for [" ++ key ++ "]")%string ;;;
  emit (GetObject bucket key) ;;;
  trail_json <<- lift (remote "s3" (s3_get_object env bucket key)) ;;
  scan_log trail_json.

End Handler.

(** ** Vocabulary of the statements *)

(** The storage location a notification item names. *)
Definition location_of (item : json) : outcome (json * json) :=
  s3 <- py_getitem item "s3" ;;
  b <- py_getitem s3 "bucket" ;;
  bucket <- py_getitem b "name" ;;
  o <- py_getitem s3 "object" ;;
  key <- py_getitem o "key" ;;
  Ok (bucket, key).

Definition has_location (item : json) : Prop :=
  exists l, location_of item = Ok l.

(** The log objects a run asked S3 for, in order. *)
Fixpoint fetches (t : list effect) : list (string * string) :=
  match t with
  | [] => []
  | GetObject b k :: rest => (b, k) :: fetches rest
  | _ :: rest => fetches rest
  end.

(** The text put in place of the fourth placeholder, as [publish_alert]
    computes it from the record. *)
Definition resource_description (record event_name bucket_name : json)
  : outcome string :=
  object_arn <- get_object_arn record ;;
  get_resource_access event_name bucket_name object_arn.

(** The verb that goes with each of the four handled operations. *)
Inductive event_verb : json -> string -> Prop :=
| verb_create_bucket : event_verb (JStr "CreateBucket") "created"
| verb_put_object : event_verb (JStr "PutObject") "created"
| verb_put_bucket_acl : event_verb (JStr "PutBucketAcl") "changed"
| verb_put_object_acl : event_verb (JStr "PutObjectAcl") "changed".

Definition is_object_resource (resource : json) : bool :=
  match py_getitem resource "type" with
  | Ok ty => py_eq_str ty "AWS::S3::Object"
  | Raise _ => false
  end.

Definition has_type (resource : json) : Prop :=
  exists ty, py_getitem resource "type" = Ok ty.

(** The resources sequence of a record; none when the field is absent. *)
Definition resources_of (items : list (string * json)) : option (list json) :=
  match lookup "resources" items with
  | None => Some []
  | Some (JList l) => Some l
  | Some _ => None
  end.

(** *** Grants (Rule B) *)

(** The grantee of the grant carries a URI with the AllUsers marker. *)
Definition to_all_users (grant : json) : bool :=
  match py_getitem grant "Grantee" with
  | Ok g =>
      match py_getitem g "URI" with
      | Ok (JStr uri) => contains all_users uri
      | _ => false
      end
  | Raise _ => false
  end.

Definition permission_among (grant : json) (names : list string) : bool :=
  match py_getitem grant "Permission" with
  | Ok p => existsb (py_eq_str p) names
  | Raise _ => false
  end.

Definition grants_public_read (grant : json) : bool :=
  to_all_users grant && permission_among grant ["READ"; "READ_ACP"].

Definition grants_public_write (grant : json) : bool :=
  to_all_users grant && permission_among grant ["WRITE"; "WRITE_ACP"].

(** A grant as CloudTrail writes it: a mapping; its grantee, if any, a
    mapping; the grantee's URI, if any, a string; and a permission on
    every grant made to AllUsers. *)
Definition well_formed_grant (grant : json) : bool :=
  match grant with
  | JDict items =>
      match lookup "Grantee" items with
      | None => true
      | Some (JDict g) =>
          match lookup "URI" g with
          | None => true
          | Some (JStr uri) =>
              if contains all_users uri then has_key "Permission" items else true
          | Some _ => false
          end
      | Some _ => false
      end
  | _ => false
  end.

(** [requestParameters.AccessControlPolicy.AccessControlList.Grant] *)
Definition grant_list_of (rp : json) : outcome json :=
  policy <- py_getitem rp "AccessControlPolicy" ;;
  acl <- py_getitem policy "AccessControlList" ;;
  py_getitem acl "Grant".

(** *** Canned ACL and grant headers (Rule A) *)

Definition canned_values (rp : list (string * json)) : list json :=
  match lookup "x-amz-acl" rp with
  | Some v => as_list v
  | None => []
  end.

Definition canned_read (values : list json) : bool :=
  existsb (fun v => py_eq_str v "public-read" || py_eq_str v "public-read-write")
          values.

Definition canned_write (values : list json) : bool :=
  existsb (fun v => py_eq_str v "public-read-write") values.

Definition grant_headers : list string :=
  ["x-amz-grant-read"; "x-amz-grant-read-acp";
   "x-amz-grant-write"; "x-amz-grant-write-acp"].

(** The header is present and its string contains the AllUsers marker. *)
Definition header_marked (acl : list (string * json)) (header : string) : bool :=
  match lookup header acl with
  | Some (JStr s) => contains all_users s
  | _ => false
  end.

(** The header is absent or holds a string. *)
Definition header_typed (acl : list (string * json)) (header : string) : bool :=
  match lookup header acl with
  | None | Some (JStr _) => true
  | Some _ => false
  end.

Definition headers_typed (acl : list (string * json)) : bool :=
  forallb (header_typed acl) grant_headers.

(** The grant headers add nothing to the decision: there is no
    [accessControlList], or none of its four headers carries the marker. *)
Definition headers_silent (rp : list (string * json)) : bool :=
  match lookup "accessControlList" rp with
  | None => true
  | Some (JDict acl) =>
      headers_typed acl && negb (existsb (header_marked acl) grant_headers)
  | Some _ => false
  end.

(** *** Records the classifier and the composer go through *)

Definition well_formed_headers (rp : list (string * json)) : bool :=
  match lookup "accessControlList" rp with
  | None => true
  | Some (JDict acl) => headers_typed acl
  | Some _ => false
  end.







(** *** The alert and what a run publishes *)



(** The publications of a run, in order. *)
Fixpoint publications (t : list effect) : list (string * string * string) :=
  match t with
  | [] => []
  | Publish topic subject message :: rest =>
      (topic, subject, message) :: publications rest
  | _ :: rest => publications rest
  end.

(** A publication to the configured topic under the fixed subject. *)
Definition configured (env : environment) (p : string * string * string) : Prop :=
  fst (fst p) = sns_topic_arn env /\ snd (fst p) = sns_subject.

(** Every flag of [d] is set in [d']. *)
Definition flags_le (d d' : bool * bool) : Prop :=
  (fst d = true -> fst d' = true) /\ (snd d = true -> snd d' = true).

(** What one record can add to the publications. *)
Definition at_most_one (env : environment) (ps : list (string * string * string))
  : Prop :=
  length ps <= 1 /\ Forall (configured env) ps.

(** A resource entry that has a type other than the object type. *)
Definition other_resource (resource : json) : Prop :=
  has_type resource /\ is_object_resource resource = false.

(** Not a [str]. *)
Definition not_str (v : json) : Prop := forall s, v <> JStr s.

(** Not a [list]. *)
Definition not_list (v : json) : Prop := forall l, v <> JList l.

(** The first line the handler prints. *)
Definition announce_line (bucket key : string) : string :=
  ("S3 bucket [" ++ bucket ++ "] object event for [" ++ key ++ "]")%string.


(** The dispatch of the record comes to its end without an exception. *)
Definition dispatch_ok (env : environment) (record : json) : Prop :=
  result (dispatch_record env record) = Ok tt.

(** What the dispatch of each record did, one record after the other. *)
Definition dispatch_traces (env : environment) (records : list json) : list effect :=
  concat (map (fun r => trace (dispatch_record env r)) records).

(** * Properties *)

(** ** Basic facts about the Python operations *)

Lemma py_getitem_Ok_inv (v : json) (k : string) (x : json) :
  py_getitem v k = Ok x ->
  exists items, v = JDict items /\ lookup k items = Some x.
Proof.
  destruct v; simpl; try discriminate.
  destruct (lookup k items) eqn:E; intros H; inversion H; subst.
  exists items; auto.
Qed.

Lemma py_getitem_lookup (items : list (string * json)) (k : string) (x : json) :
  lookup k items = Some x -> py_getitem (JDict items) k = Ok x.
Proof. intros H; simpl; now rewrite H. Qed.

Lemma py_getitem_missing (items : list (string * json)) (k : string) :
  lookup k items = None -> py_getitem (JDict items) k = Raise (KeyError k).
Proof. intros H; simpl; now rewrite H. Qed.

Lemma py_in_dict (items : list (string * json)) (k : string) :
  py_in k (JDict items) = Ok (has_key k items).
Proof. reflexivity. Qed.

Lemma has_key_lookup (items : list (string * json)) (k : string) (x : json) :
  lookup k items = Some x -> has_key k items = true.
Proof. unfold has_key; intros ->; reflexivity. Qed.

Lemma has_key_missing (items : list (string * json)) (k : string) :
  lookup k items = None -> has_key k items = false.
Proof. unfold has_key; intros ->; reflexivity. Qed.

Lemma py_eq_str_true (v : json) (s : string) :
  py_eq_str v s = true <-> v = JStr s.
Proof.
  destruct v; simpl; split; try discriminate.
  - intros H; apply String.eqb_eq in H; now subst.
  - intros H; inversion H; apply String.eqb_refl.
Qed.

Lemma py_eq_str_false (v : json) (s : string) :
  py_eq_str v s = false <-> v <> JStr s.
Proof.
  split.
  - intros H E. apply py_eq_str_true in E. congruence.
  - intros H. destruct (py_eq_str v s) eqn:E; auto.
    apply py_eq_str_true in E. contradiction.
Qed.

(** ** Alert composer *)

(** C7. For a decision with at least one flag set, the operations string is
    READ when only public_read holds, WRITE when only public_write holds and
    READ and WRITE when both do, and it is never empty. *)
Theorem get_public_access_operations (public_read public_write : bool) :
  public_read || public_write = true ->
  get_public_access public_write public_read =
    match public_read, public_write with
    | true, false => "READ"
    | false, true => "WRITE"
    | _, _ => "READ and WRITE"
    end
  /\ get_public_access public_write public_read <> "".
Proof.
  destruct public_read, public_write; simpl; intros H;
    try discriminate; split; (reflexivity || discriminate).
Qed.

Lemma get_public_access_operations_witness :
  true || false = true
  /\ get_public_access false true = "READ"
  /\ get_public_access false true <> "".
Proof.
  split; [reflexivity | apply (@get_public_access_operations true false); reflexivity].
Defined.

(** C9. For a record carrying a user agent, the invoke form is Console when
    the user agent is exactly the sign-in or the console identifier, Lambda
    when it is exactly the Lambda identifier, and API for any other user
    agent; it is always one of these three. *)
Theorem get_invoke_form_three_way (record ua : json) :
  py_getitem record "userAgent" = Ok ua ->
  (ua = JStr "signin.amazonaws.com" \/ ua = JStr "console.amazonaws.com" ->
   get_invoke_form record = Ok "Console")
  /\ (ua = JStr "lambda.amazonaws.com" -> get_invoke_form record = Ok "Lambda")
  /\ (ua <> JStr "signin.amazonaws.com" -> ua <> JStr "console.amazonaws.com" ->
      ua <> JStr "lambda.amazonaws.com" -> get_invoke_form record = Ok "API")
  /\ (get_invoke_form record = Ok "Console" \/ get_invoke_form record = Ok "Lambda"
      \/ get_invoke_form record = Ok "API").
Proof.
  intros H. unfold get_invoke_form. rewrite H. simpl.
  repeat split.
  - intros [-> | ->]; reflexivity.
  - intros ->; reflexivity.
  - intros H1 H2 H3.
    apply py_eq_str_false in H1, H2, H3. now rewrite H1, H2, H3.
  - destruct (py_eq_str ua "signin.amazonaws.com" || py_eq_str ua "console.amazonaws.com");
      [now left|].
    destruct (py_eq_str ua "lambda.amazonaws.com"); auto.
Qed.

Lemma get_invoke_form_three_way_witness :
  get_invoke_form (JDict [("userAgent", JStr "aws-cli/1.16")]) = Ok "API".
Proof.
  refine (proj1 (proj2 (proj2
    (@get_invoke_form_three_way (JDict [("userAgent", JStr "aws-cli/1.16")])
       (JStr "aws-cli/1.16") eq_refl))) _ _ _); discriminate.
Defined.

(** ** Commands and their traces *)

Lemma trace_bind {A B} (c : cmd A) (f : A -> cmd B) :
  trace (bind c f) =
  trace c ++ match result c with Ok a => trace (f a) | Raise _ => [] end.
Proof.
  destruct c as [t [a | e]]; simpl.
  - destruct (f a); reflexivity.
  - now rewrite app_nil_r.
Qed.

Lemma bind_lift_Ok {A B} (o : outcome A) (a : A) (f : A -> cmd B) :
  o = Ok a -> bind (lift o) f = f a.
Proof. intros ->. unfold bind, lift. simpl. now destruct (f a). Qed.

Lemma bind_lift_Raise {A B} (o : outcome A) (e : exn) (f : A -> cmd B) :
  o = Raise e -> bind (lift o) f = ([], Raise e).
Proof. intros ->. reflexivity. Qed.

Lemma fetches_app (t u : list effect) : fetches (t ++ u) = fetches t ++ fetches u.
Proof.
  induction t as [| [] t IH]; simpl; auto. now rewrite IH.
Qed.

Lemma fetches_bind {A B} (c : cmd A) (f : A -> cmd B) :
  fetches (trace c) = [] ->
  (forall a, fetches (trace (f a)) = []) ->
  fetches (trace (bind c f)) = [].
Proof.
  intros Hc Hf. rewrite trace_bind, fetches_app, Hc. simpl.
  destruct (result c); auto.
Qed.

Lemma fetches_lift {A} (o : outcome A) : fetches (trace (lift o)) = [].
Proof. reflexivity. Qed.

Lemma fetches_print_line env (line : string) :
  fetches (trace (print_line env line)) = [].
Proof. unfold print_line. now destruct (stdout_accepts env line). Qed.

Ltac no_fetch :=
  repeat first
    [ reflexivity
    | apply fetches_lift
    | apply fetches_print_line
    | apply fetches_bind; [| intros ?]
    | match goal with
      | |- context [let (_, _) := ?p in _] => destruct p
      | |- context [if ?b then _ else _] => destruct b
      end ].

Lemma publish_alert_no_fetch env record event_name pw pr :
  fetches (trace (publish_alert env record event_name pw pr)) = [].
Proof. unfold publish_alert. no_fetch. Qed.

Lemma handle_create_no_fetch env record event_name :
  fetches (trace (handle_create env record event_name)) = [].
Proof.
  unfold handle_create. apply fetches_bind; [apply fetches_lift |].
  intros [pr pw]. destruct (pr || pw); [apply publish_alert_no_fetch | reflexivity].
Qed.

Lemma handle_change_no_fetch env record event_name :
  fetches (trace (handle_change env record event_name)) = [].
Proof.
  unfold handle_change. apply fetches_bind; [apply fetches_lift |].
  intros [pr pw]. destruct (pr || pw); [apply publish_alert_no_fetch | reflexivity].
Qed.

Lemma dispatch_record_no_fetch env record :
  fetches (trace (dispatch_record env record)) = [].
Proof.
  unfold dispatch_record.
  apply fetches_bind; [apply fetches_lift | intros source].
  apply fetches_bind; [apply fetches_lift | intros gate].
  destruct gate; [| reflexivity].
  apply fetches_bind; [apply fetches_lift | intros event_name].
  destruct (_ || _); [apply handle_create_no_fetch |].
  destruct (_ || _); [apply handle_change_no_fetch | reflexivity].
Qed.

Lemma for_each_no_fetch env (records : list json) :
  fetches (trace (for_each (dispatch_record env) records)) = [].
Proof.
  induction records as [| r rest IH]; simpl; [reflexivity |].
  apply fetches_bind; [apply dispatch_record_no_fetch | intros _; exact IH].
Qed.

Lemma scan_log_no_fetch env (trail_json : json) :
  fetches (trace (scan_log env trail_json)) = [].
Proof.
  unfold scan_log.
  apply fetches_bind; [apply fetches_lift | intros has_records].
  destruct has_records; [| reflexivity].
  apply fetches_bind; [apply fetches_lift | intros records].
  apply for_each_no_fetch.
Qed.

(** ** The notification loop *)

Lemma bind_location_cons (item : json) (rest : list json) locals :
  bind_location (item :: rest) locals =
  (l <- location_of item ;; bind_location rest (Some (fst l), Some (snd l))).
Proof.
  unfold location_of. simpl.
  destruct (py_getitem item "s3") as [s3 |]; simpl; [| reflexivity].
  destruct (py_getitem s3 "bucket") as [b |]; simpl; [| reflexivity].
  destruct (py_getitem b "name") as [name |]; simpl; [| reflexivity].
  destruct (py_getitem s3 "object") as [o |]; simpl; [| reflexivity].
  destruct (py_getitem o "key") as [key |]; simpl; reflexivity.
Qed.

(** After the loop the locals hold the location of the last item. *)
Lemma bind_location_last (earlier : list json) (last_item : json) l locals :
  Forall has_location earlier ->
  location_of last_item = Ok l ->
  bind_location (earlier ++ [last_item]) locals = Ok (Some (fst l), Some (snd l)).
Proof.
  intros Hearlier Hlast. revert locals.
  induction Hearlier as [| item earlier [l' Hitem] _ IH]; intros locals.
  - simpl app. rewrite bind_location_cons, Hlast. reflexivity.
  - simpl app. rewrite bind_location_cons, Hitem. simpl. apply IH.
Qed.

Lemma for_each_app (body : json -> cmd unit) (l1 l2 : list json) :
  for_each body (l1 ++ l2) = (for_each body l1 ;;; for_each body l2).
Proof.
  induction l1 as [| x rest IH]; cbn [app for_each].
  - unfold ret, bind. now destruct (for_each body l2).
  - rewrite IH. destruct (body x) as [t [[] | e]]; cbn [bind]; [| reflexivity].
    destruct (for_each body rest) as [t1 [[] | e1]]; cbn [bind].
    + destruct (for_each body l2) as [t2 r2]. now rewrite app_assoc.
    + reflexivity.
Qed.

(** A loop whose turns all come to their end did what each turn did. *)
Lemma for_each_all_ok env (records : list json) :
  Forall (dispatch_ok env) records ->
  for_each (dispatch_record env) records = (dispatch_traces env records, Ok tt).
Proof.
  unfold dispatch_traces.
  induction 1 as [| r rest Hr _ IH]; cbn [for_each map concat]; [reflexivity |].
  rewrite IH. unfold dispatch_ok, result in Hr.
  destruct (dispatch_record env r) as [t o]. cbn [snd] in Hr. subst o.
  reflexivity.
Qed.

(** A loop ends with the first turn that raises. *)
Lemma for_each_raise env (before after : list json) (record : json) (e : exn) :
  Forall (dispatch_ok env) before ->
  result (dispatch_record env record) = Raise e ->
  for_each (dispatch_record env) (before ++ record :: after) =
    (dispatch_traces env before ++ trace (dispatch_record env record), Raise e).
Proof.
  intros Hbefore Hrecord.
  rewrite for_each_app, (for_each_all_ok Hbefore). cbn [for_each].
  destruct (dispatch_record env record) as [t o].
  cbn [result trace fst snd] in *. subst o. reflexivity.
Qed.

(** The handler up to the scan of the log. *)
Lemma lambda_handler_head env (event : json) (earlier : list json)
    (last_item : json) (bucket key : string) :
  py_getitem event "Records" = Ok (JList (earlier ++ [last_item])) ->
  Forall has_location earlier ->
  location_of last_item = Ok (JStr bucket, JStr key) ->
  stdout_accepts env (announce_line bucket key) = true ->
  lambda_handler env event =
    bind ([Print (announce_line bucket key); GetObject bucket key],
          remote "s3" (s3_get_object env bucket key))
         (scan_log env).
Proof.
  intros Hrecords Hearlier Hlast Hprint.
  unfold lambda_handler. rewrite Hrecords. cbn [py_iter obind].
  rewrite (bind_location_last _ _ Hearlier Hlast).
  rewrite (bind_lift_Ok _ eq_refl). cbn [fst snd read_local py_str_arg obind].
  rewrite (bind_lift_Ok _ eq_refl).
  unfold print_line. fold (announce_line bucket key). rewrite Hprint.
  unfold bind, emit, lift. cbn [app].
  destruct (remote "s3" (s3_get_object env bucket key)) as [trail |];
    [| reflexivity].
  destruct (scan_log env trail); reflexivity.
Qed.

Lemma scan_log_records env (log : list (string * json)) (records : list json) :
  lookup "Records" log = Some (JList records) ->
  scan_log env (JDict log) = for_each (dispatch_record env) records.
Proof.
  intros Hlog. unfold scan_log. rewrite py_in_dict, (has_key_lookup _ _ Hlog).
  rewrite (bind_lift_Ok _ eq_refl), (py_getitem_lookup _ _ Hlog).
  cbn [obind py_iter]. now rewrite (bind_lift_Ok _ eq_refl).
Qed.

(** A record of the log that comes after a record whose handling raises is
    not evaluated: the second record here would be reported alone, and the
    run ends on the first without a publication.  C5 as first stated, with
    every record of the log evaluated, fails on this log. *)
Lemma record_after_exception_not_evaluated :
  let broken := JDict [("eventName", JStr "PutObject")] in
  let exposed := JDict [("eventSource", JStr "s3.amazonaws.com");
                        ("eventName", JStr "PutObject");
                        ("userAgent", JStr "aws-cli/1.16");
                        ("userIdentity", JDict [("userName", JStr "ann")]);
                        ("requestParameters",
                         JDict [("bucketName", JStr "photos");
                                ("x-amz-acl", JStr "public-read")])] in
  let env := {| sns_topic_arn := "arn:aws:sns:eu-west-1:42:alerts";
                py_str := fun _ => "{}";
                stdout_accepts := fun _ => true;
                s3_get_object :=
                  fun _ _ => Some (JDict [("Records", JList [broken; exposed])]);
                sns_publish := fun _ _ _ => true |} in
  let event :=
    JDict [("Records",
            JList [JDict [("s3", JDict [("bucket", JDict [("name", JStr "logs")]);
                                        ("object", JDict [("key", JStr "a.json.gz")])])]])] in
  lambda_handler env event =
    ([Print "S3 bucket [logs] object event for [a.json.gz]";
      GetObject "logs" "a.json.gz"],
     Raise (KeyError "eventSource"))
  /\ publications (trace (lambda_handler env event)) = []
  /\ publications (trace (dispatch_record env exposed)) =
     [("arn:aws:sns:eu-west-1:42:alerts", "Public S3 bucket/object alert",
       "User ann via API call has just created bucket photos with READ public access")].
Proof. repeat split. Qed.

(** C5, amended. When the outer Records sequence of the notification is not
    empty, every item naming a bucket and a key (the last one by two
    strings), and the output stream can encode the first log line, the run
    asks S3 for exactly one log object, the one at the bucket and key of the
    last item, whatever the earlier items name.  It then evaluates the
    records of that log (a mapping with a Records sequence) in order: all
    of them when none raises, and otherwise those up to and including the
    first one that raises, the records after it being left alone. *)
Theorem lambda_handler_fetches_last env (event : json) (earlier : list json)
    (last_item : json) (bucket key : string) :
  py_getitem event "Records" = Ok (JList (earlier ++ [last_item])) ->
  Forall has_location earlier ->
  location_of last_item = Ok (JStr bucket, JStr key) ->
  stdout_accepts env (announce_line bucket key) = true ->
  let head := [Print (announce_line bucket key); GetObject bucket key] in
  fetches (trace (lambda_handler env event)) = [(bucket, key)]
  /\ forall log records,
       s3_get_object env bucket key = Some (JDict log) ->
       lookup "Records" log = Some (JList records) ->
       (Forall (dispatch_ok env) records ->
        lambda_handler env event = (head ++ dispatch_traces env records, Ok tt))
       /\ (forall before record after e,
             records = before ++ record :: after ->
             Forall (dispatch_ok env) before ->
             result (dispatch_record env record) = Raise e ->
             lambda_handler env event =
               (head ++ dispatch_traces env before
                  ++ trace (dispatch_record env record),
                Raise e)).
Proof.
  intros Hrecords Hearlier Hlast Hprint head.
  pose proof (lambda_handler_head env _ _ Hrecords Hearlier Hlast Hprint) as Hrun.
  split.
  - rewrite Hrun, trace_bind, fetches_app. cbn [trace fst result snd fetches app].
    destruct (s3_get_object env bucket key); cbn [remote]; [| reflexivity].
    now rewrite scan_log_no_fetch.
  - intros log records Hfetch Hlog.
    rewrite Hrun, Hfetch. cbn [remote bind].
    rewrite (scan_log_records env _ Hlog). split.
    + intros Hall. now rewrite (for_each_all_ok Hall).
    + intros before record after e -> Hbefore Hraise.
      rewrite (@for_each_raise env before after record e Hbefore Hraise).
      unfold head. now rewrite app_assoc.
Qed.

Lemma lambda_handler_fetches_last_witness :
  let exposed := JDict [("eventSource", JStr "s3.amazonaws.com");
                        ("eventName", JStr "PutObject");
                        ("userAgent", JStr "aws-cli/1.16");
                        ("userIdentity", JDict [("userName", JStr "ann")]);
                        ("requestParameters",
                         JDict [("bucketName", JStr "photos");
                                ("x-amz-acl", JStr "public-read")])] in
  let quiet := JDict [("eventSource", JStr "ec2.amazonaws.com")] in
  let env := {| sns_topic_arn := "arn:aws:sns:eu-west-1:42:alerts";
                py_str := fun _ => "{}";
                stdout_accepts := fun _ => true;
                s3_get_object :=
                  fun _ _ => Some (JDict [("Records", JList [quiet; exposed])]);
                sns_publish := fun _ _ _ => true |} in
  let item b k := JDict [("s3", JDict [("bucket", JDict [("name", JStr b)]);
                                       ("object", JDict [("key", JStr k)])])] in
  let event :=
    JDict [("Records",
            JList [item "logs-a" "one.json.gz"; item "logs-b" "two.json.gz"])] in
  fetches (trace (lambda_handler env event)) = [("logs-b", "two.json.gz")]
  /\ publications (trace (lambda_handler env event)) =
     [("arn:aws:sns:eu-west-1:42:alerts", "Public S3 bucket/object alert",
       "User ann via API call has just created bucket photos with READ public access")].
Proof.
  intros exposed quiet env item event.
  assert (Hearlier : Forall has_location [item "logs-a" "one.json.gz"]).
  { constructor; [| constructor].
    exists (JStr "logs-a", JStr "one.json.gz"). reflexivity. }
  assert (Hall : Forall (dispatch_ok env) [quiet; exposed])
    by (repeat constructor).
  pose proof (@lambda_handler_fetches_last env event
                [item "logs-a" "one.json.gz"] (item "logs-b" "two.json.gz")
                "logs-b" "two.json.gz" eq_refl Hearlier eq_refl eq_refl) as H.
  split.
  - exact (proj1 H).
  - exact (f_equal (fun c => publications (trace c))
             (proj1 (proj2 H [("Records", JList [quiet; exposed])]
                       [quiet; exposed] eq_refl eq_refl) Hall)).
Defined.

(** C10. With an empty outer Records sequence the handler stops on the
    unbound local bucket, and with no Records key at all on the failed key
    lookup; in both cases before it printed or fetched anything. *)
Theorem lambda_handler_empty_notification env (event : json) :
  (py_getitem event "Records" = Ok (JList []) ->
   lambda_handler env event = ([], Raise (UnboundLocalError "bucket")))
  /\ (forall items, event = JDict items -> lookup "Records" items = None ->
      lambda_handler env event = ([], Raise (KeyError "Records"))).
Proof.
  split.
  - intros H. unfold lambda_handler. rewrite H. reflexivity.
  - intros items -> H. unfold lambda_handler.
    rewrite (py_getitem_missing _ _ H). reflexivity.
Qed.

Lemma lambda_handler_empty_notification_witness :
  let env := {| sns_topic_arn := "arn:aws:sns:eu-west-1:42:alerts";
                py_str := fun _ => "{}";
                stdout_accepts := fun _ => true;
                s3_get_object := fun _ _ => Some (JDict [("Records", JList [])]);
                sns_publish := fun _ _ _ => true |} in
  lambda_handler env (JDict [("Records", JList [])])
    = ([], Raise (UnboundLocalError "bucket"))
  /\ lambda_handler env (JDict [("detail", JStr "none")])
    = ([], Raise (KeyError "Records")).
Proof.
  intros env. split.
  - exact (proj1 (lambda_handler_empty_notification env
                    (JDict [("Records", JList [])])) eq_refl).
  - exact (proj2 (lambda_handler_empty_notification env
                    (JDict [("detail", JStr "none")])) _ eq_refl eq_refl).
Defined.

(** ** Resource description *)

Lemma first_object_arn_find (resources : list json) :
  Forall has_type resources ->
  first_object_arn resources =
    match find is_object_resource resources with
    | Some r => py_getitem r "ARN"
    | None => Ok JNull
    end.
Proof.
  induction 1 as [| r rest [ty Hty] _ IH]; simpl; [reflexivity |].
  unfold is_object_resource. rewrite Hty. simpl.
  destruct (py_eq_str ty "AWS::S3::Object"); [reflexivity | exact IH].
Qed.

Lemma get_object_arn_find (items : list (string * json)) (resources : list json) :
  resources_of items = Some resources ->
  Forall has_type resources ->
  get_object_arn (JDict items) =
    match find is_object_resource resources with
    | Some r => py_getitem r "ARN"
    | None => Ok JNull
    end.
Proof.
  unfold resources_of, get_object_arn. simpl. unfold has_key.
  destruct (lookup "resources" items) as [v |] eqn:E.
  - destruct v; try discriminate. intros H; inversion H; subst.
    simpl. apply first_object_arn_find.
  - intros H; inversion H; subst. reflexivity.
Qed.

Lemma event_verb_access (event_name : json) (verb : string) :
  event_verb event_name verb ->
  forall bucket_name object_arn,
    get_resource_access event_name bucket_name object_arn =
      match object_arn with
      | JNull => py_join " " [JStr verb; JStr "bucket"; bucket_name]
      | _ => py_join " " [JStr verb; object_arn; JStr "at bucket"; bucket_name]
      end.
Proof.
  intros [] bucket_name object_arn; unfold get_resource_access; simpl;
    destruct object_arn; reflexivity.
Qed.

(** C8. For a record with one of the four handled event names, the resource
    description starts with created for CreateBucket and PutObject and with
    changed for PutBucketAcl and PutObjectAcl; it goes on with the ARN of
    the first resource of type object, at bucket and the bucket name, when
    the resources sequence has such an entry, and with bucket and the bucket
    name when it has none, an absent resources field included. *)
Theorem resource_description_form (items : list (string * json))
    (event_name : json) (verb bucket : string) (resources : list json) :
  event_verb event_name verb ->
  resources_of items = Some resources ->
  Forall has_type resources ->
  (forall r arn,
     find is_object_resource resources = Some r ->
     py_getitem r "ARN" = Ok (JStr arn) ->
     resource_description (JDict items) event_name (JStr bucket)
       = Ok (verb ++ " " ++ arn ++ " at bucket " ++ bucket)%string)
  /\ (find is_object_resource resources = None ->
      resource_description (JDict items) event_name (JStr bucket)
        = Ok (verb ++ " bucket " ++ bucket)%string).
Proof.
  intros Hverb Hres Htyped. unfold resource_description.
  rewrite (get_object_arn_find _ Hres Htyped). split.
  - intros r arn -> ->. simpl.
    rewrite (event_verb_access Hverb). reflexivity.
  - intros ->. simpl. rewrite (event_verb_access Hverb). reflexivity.
Qed.

Lemma resource_description_form_witness :
  let resources :=
    [JDict [("type", JStr "AWS::S3::Bucket"); ("ARN", JStr "arn:aws:s3:::photos")];
     JDict [("type", JStr "AWS::S3::Object");
            ("ARN", JStr "arn:aws:s3:::photos/cat.png")];
     JDict [("type", JStr "AWS::S3::Object");
            ("ARN", JStr "arn:aws:s3:::photos/dog.png")]] in
  resource_description (JDict [("resources", JList resources)])
    (JStr "PutObjectAcl") (JStr "photos")
  = Ok "changed arn:aws:s3:::photos/cat.png at bucket photos".
Proof.
  intros resources.
  assert (Htyped : Forall has_type resources)
    by (repeat constructor; eexists; reflexivity).
  exact (proj1 (@resource_description_form [("resources", JList resources)]
                  (JStr "PutObjectAcl") "changed" "photos" resources
                  verb_put_object_acl eq_refl Htyped)
           _ "arn:aws:s3:::photos/cat.png" eq_refl eq_refl).
Defined.

(** ** Rule B: the grant list *)

Lemma permission_read_not_write (p : json) :
  py_eq_str p "READ" || py_eq_str p "READ_ACP" = true ->
  py_eq_str p "WRITE" || py_eq_str p "WRITE_ACP" = false.
Proof.
  intros H. apply orb_true_iff in H.
  destruct H as [H | H]; apply py_eq_str_true in H; subst; reflexivity.
Qed.

Lemma grant_step_formula (grant : json) (pr pw : bool) :
  well_formed_grant grant = true ->
  grant_step (pr, pw) grant =
    Ok (pr || grants_public_read grant, pw || grants_public_write grant).
Proof.
  unfold well_formed_grant, grant_step, grants_public_read, grants_public_write,
    to_all_users, permission_among.
  destruct grant as [| | | | | | items]; try discriminate.
  simpl. unfold has_key.
  destruct (lookup "Grantee" items) as [g |];
    [| intros _; simpl; now rewrite !orb_false_r].
  destruct g as [| | | | | | gi]; try discriminate.
  simpl. unfold has_key.
  destruct (lookup "URI" gi) as [uri |];
    [| intros _; simpl; now rewrite !orb_false_r].
  destruct uri as [| | | | uri | |]; try discriminate.
  simpl.
  destruct (contains all_users uri);
    [| intros _; simpl; now rewrite !orb_false_r].
  destruct (lookup "Permission" items) as [p |]; [intros _ | discriminate].
  simpl. rewrite !orb_false_r.
  destruct (py_eq_str p "READ" || py_eq_str p "READ_ACP") eqn:Hr.
  - rewrite (permission_read_not_write _ Hr).
    now rewrite orb_true_r, orb_false_r.
  - rewrite orb_false_r.
    destruct (py_eq_str p "WRITE" || py_eq_str p "WRITE_ACP");
      now rewrite ?orb_true_r, ?orb_false_r.
Qed.

Lemma scan_grants_formula (grant_list : list json) (pr pw : bool) :
  forallb well_formed_grant grant_list = true ->
  scan_grants grant_list (pr, pw) =
    Ok (pr || existsb grants_public_read grant_list,
        pw || existsb grants_public_write grant_list).
Proof.
  revert pr pw.
  induction grant_list as [| g rest IH]; intros pr pw H;
    cbn [forallb] in H; cbn [scan_grants existsb].
  - now rewrite !orb_false_r.
  - apply andb_true_iff in H. destruct H as [Hg Hrest].
    rewrite (grant_step_formula _ _ _ Hg). cbn [obind].
    rewrite (IH _ _ Hrest). now rewrite !orb_assoc.
Qed.

Lemma change_decision_formula (record : json) (rp : list (string * json))
    (grant_value : json) :
  py_getitem record "requestParameters" = Ok (JDict rp) ->
  grant_list_of (JDict rp) = Ok grant_value ->
  forallb well_formed_grant (as_list grant_value) = true ->
  change_decision record =
    Ok (existsb grants_public_read (as_list grant_value),
        existsb grants_public_write (as_list grant_value)).
Proof.
  intros Hrp Hgrant Hwf. unfold change_decision.
  rewrite Hrp. cbn [obind]. rewrite py_in_dict.
  unfold grant_list_of in Hgrant.
  destruct (py_getitem (JDict rp) "AccessControlPolicy") as [policy |] eqn:Hpolicy;
    [| discriminate Hgrant].
  destruct (py_getitem_Ok_inv _ _ Hpolicy) as (items & Hitems & Hlookup).
  inversion Hitems; subst items.
  rewrite (has_key_lookup _ _ Hlookup). cbn [obind] in *.
  destruct (py_getitem policy "AccessControlList") as [acl |];
    [| discriminate Hgrant].
  cbn [obind] in *. rewrite Hgrant. cbn [obind].
  now rewrite (scan_grants_formula _ false false Hwf).
Qed.

(** C2. For a record whose request parameters carry an AccessControlPolicy
    with well-formed grants, the decision of Rule B is the disjunction over
    the grants: for a list of grants, public_read when some grant to
    AllUsers has permission READ or READ_ACP and public_write when some
    grant to AllUsers has permission WRITE or WRITE_ACP; for a grant given
    alone, what that one grant gives, as for the list of that one grant.
    Grants with no URI or with a URI lacking the marker count for nothing.
    For a READ grant to AllUsers followed by a WRITE grant to another
    principal the decision is (true, false). *)
Theorem change_decision_disjunction (record : json) (rp : list (string * json))
    (grant_value : json) :
  py_getitem record "requestParameters" = Ok (JDict rp) ->
  grant_list_of (JDict rp) = Ok grant_value ->
  (forall grants, grant_value = JList grants ->
     forallb well_formed_grant grants = true ->
     change_decision record =
       Ok (existsb grants_public_read grants, existsb grants_public_write grants))
  /\ (well_formed_grant grant_value = true ->
      change_decision record =
        Ok (grants_public_read grant_value, grants_public_write grant_value))
  /\ (forall g, to_all_users g = false ->
      grants_public_read g = false /\ grants_public_write g = false)
  /\ (forall g1 g2,
        grant_value = JList [g1; g2] ->
        well_formed_grant g1 = true -> well_formed_grant g2 = true ->
        to_all_users g1 = true -> py_getitem g1 "Permission" = Ok (JStr "READ") ->
        to_all_users g2 = false ->
        change_decision record = Ok (true, false)).
Proof.
  intros Hrp Hgrant.
  split; [| split; [| split]].
  - intros grants -> Hwf.
    exact (change_decision_formula _ Hrp Hgrant Hwf).
  - intros Hwf.
    assert (Hlist : as_list grant_value = [grant_value])
      by (destruct grant_value; try reflexivity; discriminate Hwf).
    assert (Hall : forallb well_formed_grant (as_list grant_value) = true)
      by (rewrite Hlist; cbn [forallb]; now rewrite Hwf).
    rewrite (change_decision_formula _ Hrp Hgrant Hall), Hlist.
    cbn [existsb]. now rewrite !orb_false_r.
  - intros g Hg. unfold grants_public_read, grants_public_write.
    now rewrite Hg.
  - intros g1 g2 -> Hwf1 Hwf2 H1 Hp H2.
    assert (Hall : forallb well_formed_grant (as_list (JList [g1; g2])) = true)
      by (cbn [as_list forallb]; now rewrite Hwf1, Hwf2).
    rewrite (change_decision_formula _ Hrp Hgrant Hall). cbn [as_list existsb].
    unfold grants_public_read, grants_public_write, permission_among.
    rewrite H1, H2, Hp. reflexivity.
Qed.

Lemma change_decision_disjunction_witness :
  let all := JDict [("URI", JStr "http://acs.amazonaws.com/groups/global/AllUsers");
                    ("xsi:type", JStr "Group")] in
  let owner := JDict [("ID", JStr "75aa57f09aa0c8caeab4f8c24e99d10f8e7faeeb");
                      ("xsi:type", JStr "CanonicalUser")] in
  let read := JDict [("Grantee", all); ("Permission", JStr "READ")] in
  let write := JDict [("Grantee", owner); ("Permission", JStr "WRITE")] in
  let request grants :=
    [("bucketName", JStr "photos");
     ("AccessControlPolicy",
      JDict [("AccessControlList", JDict [("Grant", grants)])])] in
  change_decision (JDict [("requestParameters", JDict (request (JList [read; write])))])
    = Ok (true, false)
  /\ change_decision (JDict [("requestParameters", JDict (request read))])
    = Ok (true, false).
Proof.
  intros all owner read write request. split.
  - exact (proj1 (@change_decision_disjunction
                    (JDict [("requestParameters", JDict (request (JList [read; write])))])
                    (request (JList [read; write])) (JList [read; write])
                    eq_refl eq_refl)
             [read; write] eq_refl eq_refl).
  - exact (proj1 (proj2 (@change_decision_disjunction
                    (JDict [("requestParameters", JDict (request read))])
                    (request read) read eq_refl eq_refl))
             eq_refl).
Defined.

(** ** Rule A: canned ACL and grant headers *)

Lemma canned_scan_formula (values : list json) (pr pw : bool) :
  fold_left canned_step values (pr, pw) =
    (pr || canned_read values, pw || canned_write values).
Proof.
  revert pr pw. unfold canned_read, canned_write.
  induction values as [| v rest IH]; intros pr pw; cbn [fold_left existsb].
  - now rewrite !orb_false_r.
  - unfold canned_step at 2. rewrite IH.
    destruct (py_eq_str v "public-read" || py_eq_str v "public-read-write"),
      (py_eq_str v "public-read-write");
      now rewrite ?orb_true_r, ?orb_false_r, ?orb_true_l, ?orb_false_l.
Qed.

Lemma header_is_public_typed (acl : list (string * json)) (header : string) :
  header_typed acl header = true ->
  header_is_public (JDict acl) header = Ok (header_marked acl header).
Proof.
  unfold header_typed, header_is_public, header_marked. simpl. unfold has_key.
  destruct (lookup header acl) as [[] |]; try discriminate; reflexivity.
Qed.

Lemma headers_typed_each (acl : list (string * json)) :
  headers_typed acl = true ->
  header_typed acl "x-amz-grant-read" = true
  /\ header_typed acl "x-amz-grant-read-acp" = true
  /\ header_typed acl "x-amz-grant-write" = true
  /\ header_typed acl "x-amz-grant-write-acp" = true.
Proof.
  unfold headers_typed, grant_headers. cbn [forallb].
  rewrite !andb_true_iff. tauto.
Qed.

(** The canned ACL part of [create_decision], on a mapping. *)
Lemma create_decision_unfold (record : json) (rp : list (string * json)) :
  py_getitem record "requestParameters" = Ok (JDict rp) ->
  create_decision record =
    (let d := (canned_read (canned_values rp), canned_write (canned_values rp)) in
     match lookup "accessControlList" rp with
     | None => Ok d
     | Some acl =>
         r1 <- header_is_public acl "x-amz-grant-read" ;;
         r2 <- header_is_public acl "x-amz-grant-read-acp" ;;
         w1 <- header_is_public acl "x-amz-grant-write" ;;
         w2 <- header_is_public acl "x-amz-grant-write-acp" ;;
         Ok (fst d || r1 || r2, snd d || w1 || w2)
     end).
Proof.
  intros Hrp. unfold create_decision. rewrite Hrp. cbn [obind].
  rewrite !py_in_dict. cbn [obind]. unfold canned_values, has_key.
  assert (Hd : (if match lookup "x-amz-acl" rp with Some _ => true | None => false end
                then acl_headers <- py_getitem (JDict rp) "x-amz-acl" ;;
                     Ok (fold_left canned_step (as_list acl_headers) (false, false))
                else Ok (false, false))
               = Ok (canned_read (canned_values rp), canned_write (canned_values rp))).
  { unfold canned_values. simpl.
    destruct (lookup "x-amz-acl" rp) as [v |]; [| reflexivity].
    simpl. now rewrite canned_scan_formula. }
  unfold canned_values in Hd. rewrite Hd. cbn [obind].
  simpl py_getitem.
  destruct (lookup "accessControlList" rp) as [acl |]; [| reflexivity].
  cbn [obind fst snd].
  destruct (header_is_public acl "x-amz-grant-read") as [[] |]; cbn [obind];
    [| | reflexivity];
    (destruct (header_is_public acl "x-amz-grant-read-acp") as [[] |]; cbn [obind];
     [| | reflexivity]);
    (destruct (header_is_public acl "x-amz-grant-write") as [[] |]; cbn [obind];
     [| | reflexivity]);
    (destruct (header_is_public acl "x-amz-grant-write-acp") as [[] |]; cbn [obind];
     [| | reflexivity]);
    now rewrite ?orb_true_r, ?orb_false_r.
Qed.

Lemma create_decision_headers (record : json) (rp acl : list (string * json)) :
  py_getitem record "requestParameters" = Ok (JDict rp) ->
  lookup "accessControlList" rp = Some (JDict acl) ->
  headers_typed acl = true ->
  create_decision record =
    Ok (canned_read (canned_values rp)
          || header_marked acl "x-amz-grant-read"
          || header_marked acl "x-amz-grant-read-acp",
        canned_write (canned_values rp)
          || header_marked acl "x-amz-grant-write"
          || header_marked acl "x-amz-grant-write-acp").
Proof.
  intros Hrp Hacl Htyped.
  destruct (headers_typed_each _ Htyped) as (H1 & H2 & H3 & H4).
  rewrite (create_decision_unfold _ Hrp), Hacl. cbn zeta.
  rewrite !header_is_public_typed by assumption. reflexivity.
Qed.

Lemma create_decision_silent (record : json) (rp : list (string * json)) :
  py_getitem record "requestParameters" = Ok (JDict rp) ->
  headers_silent rp = true ->
  create_decision record =
    Ok (canned_read (canned_values rp), canned_write (canned_values rp)).
Proof.
  intros Hrp Hsilent. unfold headers_silent in Hsilent.
  destruct (lookup "accessControlList" rp) as [acl |] eqn:Hacl.
  - destruct acl as [| | | | | | acl]; try discriminate.
    apply andb_true_iff in Hsilent. destruct Hsilent as [Htyped Hnone].
    rewrite (create_decision_headers _ Hrp Hacl Htyped).
    apply negb_true_iff in Hnone. unfold grant_headers in Hnone.
    cbn [existsb] in Hnone. rewrite !orb_false_iff in Hnone.
    destruct Hnone as (-> & -> & -> & -> & _). now rewrite !orb_false_r.
  - now rewrite (create_decision_unfold _ Hrp), Hacl.
Qed.

Lemma canned_all_private (l : list json) :
  Forall (eq (JStr "private")) l -> canned_read l = false /\ canned_write l = false.
Proof.
  unfold canned_read, canned_write.
  induction 1 as [| v rest <- _ [IHr IHw]]; cbn [existsb]; [now split |].
  now rewrite IHr, IHw.
Qed.

Lemma existsb_In_true {A} (f : A -> bool) (x : A) (l : list A) :
  In x l -> f x = true -> existsb f l = true.
Proof. intros Hin Hf. apply existsb_exists. now exists x. Qed.

(** The decision for a private canned ACL is not (false, false) when a
    grant header of the same request names AllUsers: C3 as first stated
    fails on this record. *)
Lemma canned_private_with_public_header :
  let rp := [("bucketName", JStr "photos");
             ("x-amz-acl", JList [JStr "private"]);
             ("accessControlList",
              JDict [("x-amz-grant-read",
                      JStr "uri=http://acs.amazonaws.com/groups/global/AllUsers")])] in
  create_decision (JDict [("requestParameters", JDict rp)]) = Ok (true, false)
  /\ create_decision (JDict [("requestParameters", JDict rp)]) <> Ok (false, false).
Proof. split; [reflexivity | discriminate]. Qed.

Lemma create_decision_or_headers (record : json) (rp : list (string * json)) :
  py_getitem record "requestParameters" = Ok (JDict rp) ->
  well_formed_headers rp = true ->
  exists headers_read headers_write,
    create_decision record =
      Ok (canned_read (canned_values rp) || headers_read,
          canned_write (canned_values rp) || headers_write)
    /\ (headers_silent rp = true ->
        headers_read = false /\ headers_write = false).
Proof.
  intros Hrp Hwf. unfold well_formed_headers in Hwf. unfold headers_silent.
  destruct (lookup "accessControlList" rp) as [acl |] eqn:Hacl.
  - destruct acl as [| | | | | | acl]; try discriminate.
    exists (header_marked acl "x-amz-grant-read"
            || header_marked acl "x-amz-grant-read-acp"),
           (header_marked acl "x-amz-grant-write"
            || header_marked acl "x-amz-grant-write-acp").
    split.
    + rewrite (create_decision_headers _ Hrp Hacl Hwf). now rewrite !orb_assoc.
    + intros Hsilent. apply andb_true_iff in Hsilent.
      destruct Hsilent as [_ Hnone]. apply negb_true_iff in Hnone.
      unfold grant_headers in Hnone. cbn [existsb] in Hnone.
      rewrite !orb_false_iff in Hnone.
      destruct Hnone as (-> & -> & -> & -> & _). now split.
  - exists false, false. split; [| now split].
    rewrite (create_decision_unfold _ Hrp), Hacl. now rewrite !orb_false_r.
Qed.

(** C3, amended. For a record whose request parameters carry a canned ACL
    (one value standing for a list of one) and whose accessControlList, if
    there, is a mapping with each of its four grant headers absent or a
    string, the classifier comes to a decision in which public_read is set
    when some value is public-read, and public_read and public_write are
    both set when some value is public-read-write.  When moreover none of
    the four grant headers carries the AllUsers marker, the single string
    public-read gives (true, false), public-read-write gives (true, true),
    and a sequence of private values only gives (false, false). *)
Theorem create_decision_canned_acl (record : json) (rp : list (string * json))
    (acl_value : json) :
  py_getitem record "requestParameters" = Ok (JDict rp) ->
  lookup "x-amz-acl" rp = Some acl_value ->
  well_formed_headers rp = true ->
  exists d,
    create_decision record = Ok d
    /\ (acl_value = JStr "public-read"
        \/ (exists l, acl_value = JList l /\ In (JStr "public-read") l) ->
        fst d = true)
    /\ (acl_value = JStr "public-read-write"
        \/ (exists l, acl_value = JList l /\ In (JStr "public-read-write") l) ->
        fst d = true /\ snd d = true)
    /\ (headers_silent rp = true ->
        (acl_value = JStr "public-read" -> d = (true, false))
        /\ (acl_value = JStr "public-read-write" -> d = (true, true))
        /\ (forall l, acl_value = JList l -> Forall (eq (JStr "private")) l ->
            d = (false, false))).
Proof.
  intros Hrp Hacl Hwf.
  destruct (create_decision_or_headers _ Hrp Hwf) as (hr & hw & Hd & Hsilent).
  unfold canned_values in Hd. rewrite Hacl in Hd.
  eexists. split; [exact Hd |]. cbn [fst snd].
  split; [| split].
  - intros [-> | (l & -> & Hin)]; [reflexivity |].
    cbn [as_list]. unfold canned_read.
    now rewrite (existsb_In_true _ _ _ Hin).
  - intros [-> | (l & -> & Hin)]; [split; reflexivity |].
    cbn [as_list]. unfold canned_read, canned_write.
    split; now rewrite (existsb_In_true _ _ _ Hin).
  - intros Hs. destruct (Hsilent Hs) as [-> ->].
    split; [| split].
    + now intros ->.
    + now intros ->.
    + intros l -> Hprivate. cbn [as_list].
      destruct (canned_all_private Hprivate) as [-> ->]. reflexivity.
Qed.

Lemma create_decision_canned_acl_witness :
  let everyone := JStr "uri=http://acs.amazonaws.com/groups/global/AllUsers" in
  let request acl headers :=
    JDict [("requestParameters",
            JDict [("bucketName", JStr "photos");
                   ("x-amz-acl", acl);
                   ("accessControlList", JDict headers)])] in
  (exists d, create_decision (request (JStr "public-read")
                                [("x-amz-grant-write", everyone)]) = Ok d
             /\ fst d = true)
  /\ (exists d, create_decision
                  (request (JList [JStr "private"; JStr "private"])
                     [("x-amz-grant-read", JStr "id=75aa57f09aa0c8caeab4f8c24e99d10f")])
                = Ok d
                /\ d = (false, false)).
Proof.
  intros everyone request. split.
  - destruct (@create_decision_canned_acl
                (request (JStr "public-read") [("x-amz-grant-write", everyone)])
                [("bucketName", JStr "photos");
                 ("x-amz-acl", JStr "public-read");
                 ("accessControlList", JDict [("x-amz-grant-write", everyone)])]
                (JStr "public-read") eq_refl eq_refl eq_refl)
      as (d & Hd & Hread & _).
    exists d. split; [exact Hd | apply Hread; left; reflexivity].
  - destruct (@create_decision_canned_acl
                (request (JList [JStr "private"; JStr "private"])
                   [("x-amz-grant-read", JStr "id=75aa57f09aa0c8caeab4f8c24e99d10f")])
                [("bucketName", JStr "photos");
                 ("x-amz-acl", JList [JStr "private"; JStr "private"]);
                 ("accessControlList",
                  JDict [("x-amz-grant-read",
                          JStr "id=75aa57f09aa0c8caeab4f8c24e99d10f")])]
                (JList [JStr "private"; JStr "private"]) eq_refl eq_refl eq_refl)
      as (d & Hd & _ & _ & Hsilent).
    exists d. split; [exact Hd |].
    apply (proj2 (proj2 (Hsilent eq_refl)) [JStr "private"; JStr "private"] eq_refl).
    repeat constructor.
Defined.

(** C4. For a record whose request parameters carry the grant header
    mapping, its four headers absent or strings, each header counts on its
    own: public_read is set when x-amz-grant-read or x-amz-grant-read-acp is
    there with the AllUsers marker, public_write when x-amz-grant-write or
    x-amz-grant-write-acp is; an absent header counts for nothing; and a
    marked x-amz-grant-read-acp makes public_read true whatever the other
    fields hold. *)
Theorem create_decision_grant_headers (record : json)
    (rp acl : list (string * json)) :
  py_getitem record "requestParameters" = Ok (JDict rp) ->
  lookup "accessControlList" rp = Some (JDict acl) ->
  headers_typed acl = true ->
  create_decision record =
    Ok (canned_read (canned_values rp)
          || header_marked acl "x-amz-grant-read"
          || header_marked acl "x-amz-grant-read-acp",
        canned_write (canned_values rp)
          || header_marked acl "x-amz-grant-write"
          || header_marked acl "x-amz-grant-write-acp")
  /\ (forall header, lookup header acl = None -> header_marked acl header = false)
  /\ (header_marked acl "x-amz-grant-read-acp" = true ->
      exists public_write, create_decision record = Ok (true, public_write)).
Proof.
  intros Hrp Hacl Htyped.
  pose proof (create_decision_headers _ Hrp Hacl Htyped) as Hd.
  split; [exact Hd | split].
  - intros header Habsent. unfold header_marked. now rewrite Habsent.
  - intros Hmarked. rewrite Hd, Hmarked, orb_true_r. eauto.
Qed.

Lemma create_decision_grant_headers_witness :
  let acl := [("x-amz-grant-read-acp",
               JStr "uri=http://acs.amazonaws.com/groups/global/AllUsers");
              ("x-amz-grant-write", JStr "id=75aa57f09aa0c8caeab4f8c24e99d10f")] in
  let rp := [("bucketName", JStr "photos");
             ("x-amz-acl", JList [JStr "private"]);
             ("accessControlList", JDict acl)] in
  create_decision (JDict [("requestParameters", JDict rp)]) = Ok (true, false).
Proof.
  intros acl rp.
  exact (proj1 (@create_decision_grant_headers
                  (JDict [("requestParameters", JDict rp)]) rp acl
                  eq_refl eq_refl eq_refl)).
Defined.

(** ** Dispatch *)

(** A record whose request parameters are null passes the gate of the
    dispatch loop and fails in the classifier: C6 as first stated, which
    has a record without request parameters skipped, fails on it. *)
Lemma dispatch_null_parameters_not_skipped :
  let env := {| sns_topic_arn := "arn:aws:sns:eu-west-1:42:alerts";
                py_str := fun _ => "{}";
                stdout_accepts := fun _ => true;
                s3_get_object := fun _ _ => None;
                sns_publish := fun _ _ _ => true |} in
  let record := JDict [("eventSource", JStr "s3.amazonaws.com");
                       ("eventName", JStr "CreateBucket");
                       ("requestParameters", JNull)] in
  dispatch_record env record = ([], Raise TypeError)
  /\ dispatch_record env record = handle_create env record (JStr "CreateBucket")
  /\ dispatch_record env record <> ret tt.
Proof. repeat split; discriminate. Qed.

(** C6, amended. A record of the log is handed to the classifier exactly
    when its event source is s3.amazonaws.com and it has the key
    requestParameters, whatever that key holds: CreateBucket and PutObject
    go to Rule A, PutBucketAcl and PutObjectAcl to Rule B.  A record with
    another event source, without the key, or with any other event name is
    passed over with no effect.  The classifier calls the composer exactly
    when public_read or public_write is set in its decision. *)
Theorem dispatch_record_routing env (record source : json) :
  py_getitem record "eventSource" = Ok source ->
  (source <> JStr "s3.amazonaws.com" -> dispatch_record env record = ret tt)
  /\ (py_in "requestParameters" record = Ok false ->
      dispatch_record env record = ret tt)
  /\ (source = JStr "s3.amazonaws.com" ->
      py_in "requestParameters" record = Ok true ->
      forall event_name, py_getitem record "eventName" = Ok event_name ->
        (event_name = JStr "CreateBucket" \/ event_name = JStr "PutObject" ->
         dispatch_record env record = handle_create env record event_name)
        /\ (event_name = JStr "PutBucketAcl" \/ event_name = JStr "PutObjectAcl" ->
            dispatch_record env record = handle_change env record event_name)
        /\ (event_name <> JStr "CreateBucket" -> event_name <> JStr "PutObject" ->
            event_name <> JStr "PutBucketAcl" -> event_name <> JStr "PutObjectAcl" ->
            dispatch_record env record = ret tt))
  /\ (forall event_name d, create_decision record = Ok d ->
      handle_create env record event_name =
        if fst d || snd d
        then publish_alert env record event_name (snd d) (fst d)
        else ret tt)
  /\ (forall event_name d, change_decision record = Ok d ->
      handle_change env record event_name =
        if fst d || snd d
        then publish_alert env record event_name (snd d) (fst d)
        else ret tt).
Proof.
  intros Hsource.
  assert (Hclassify : forall (o : outcome (bool * bool)) d event_name, o = Ok d ->
            (d <<- lift o ;;
             let (public_read, public_write) := d in
             if public_read || public_write
             then publish_alert env record event_name public_write public_read
             else ret tt)
            = if fst d || snd d
              then publish_alert env record event_name (snd d) (fst d)
              else ret tt).
  { intros o [pr pw] event_name ->. now rewrite (bind_lift_Ok (a := (pr, pw))). }
  split; [| split; [| split; [| split]]].
  - intros Hother. unfold dispatch_record.
    rewrite (bind_lift_Ok _ Hsource).
    apply py_eq_str_false in Hother. rewrite Hother. reflexivity.
  - intros Hkey. unfold dispatch_record.
    rewrite (bind_lift_Ok _ Hsource), Hkey.
    destruct (py_eq_str source "s3.amazonaws.com"); reflexivity.
  - intros -> Hkey event_name Hname. unfold dispatch_record.
    rewrite (bind_lift_Ok _ Hsource). cbn [py_eq_str]. rewrite String.eqb_refl.
    rewrite (bind_lift_Ok _ Hkey), (bind_lift_Ok _ Hname).
    split; [| split].
    + intros [-> | ->]; reflexivity.
    + intros [-> | ->]; reflexivity.
    + intros H1 H2 H3 H4. apply py_eq_str_false in H1, H2, H3, H4.
      now rewrite H1, H2, H3, H4.
  - intros event_name d Hd. unfold handle_create. now apply Hclassify.
  - intros event_name d Hd. unfold handle_change. now apply Hclassify.
Qed.

Lemma dispatch_record_routing_witness :
  let env := {| sns_topic_arn := "arn:aws:sns:eu-west-1:42:alerts";
                py_str := fun _ => "{}";
                stdout_accepts := fun _ => true;
                s3_get_object := fun _ _ => None;
                sns_publish := fun _ _ _ => true |} in
  let record := JDict [("eventSource", JStr "s3.amazonaws.com");
                       ("eventName", JStr "PutObjectAcl");
                       ("requestParameters", JDict [])] in
  dispatch_record env record = handle_change env record (JStr "PutObjectAcl").
Proof.
  intros env record.
  exact (proj1 (proj2 (proj1 (proj2 (proj2
    (@dispatch_record_routing env record (JStr "s3.amazonaws.com") eq_refl)))
    eq_refl eq_refl (JStr "PutObjectAcl") eq_refl)) (or_intror eq_refl)).
Defined.

(** ** Missing fields *)
















(** ** The text of the alert *)










Lemma prefix_empty (s : string) : String.prefix "" s = true.
Proof. destruct s; reflexivity. Qed.




(** ** More on the two rules *)

Lemma grant_step_never_clears (d d' : bool * bool) (grantee : json) :
  grant_step d grantee = Ok d' -> flags_le d d'.
Proof.
  unfold grant_step, flags_le. destruct d as [pr pw].
  destruct (py_in "Grantee" grantee) as [[] |]; cbn [obind]; try discriminate;
    [| intros H; inversion H; auto].
  destruct (py_getitem grantee "Grantee") as [g |]; cbn [obind]; [| discriminate].
  destruct (py_in "URI" g) as [[] |]; cbn [obind]; try discriminate.
  - destruct (uri <- py_getitem g "URI" ;; py_in all_users uri) as [[] |];
      cbn [obind]; try discriminate; [| intros H; inversion H; auto].
    destruct (py_getitem grantee "Permission") as [p |]; cbn [obind];
      [| discriminate].
    destruct (_ || _); [intros H; inversion H; auto |].
    destruct (_ || _); intros H; inversion H; auto.
  - intros H; inversion H; auto.
Qed.

Lemma scan_grants_never_clears (grant_list : list json) (d d' : bool * bool) :
  scan_grants grant_list d = Ok d' -> flags_le d d'.
Proof.
  revert d. induction grant_list as [| g rest IH]; intros d; cbn [scan_grants].
  - intros H; inversion H; subst. split; auto.
  - destruct (grant_step d g) as [d1 |] eqn:Hstep; cbn [obind]; [| discriminate].
    intros Hrest. destruct (grant_step_never_clears _ _ Hstep) as [H1 H2].
    destruct (IH _ Hrest) as [H3 H4]. split; auto.
Qed.

Lemma scan_grants_app (l1 l2 : list json) (d : bool * bool) :
  scan_grants (l1 ++ l2) d = (d1 <- scan_grants l1 d ;; scan_grants l2 d1).
Proof.
  revert d. induction l1 as [| g rest IH]; intros d; cbn [app scan_grants obind];
    [reflexivity |].
  destruct (grant_step d g); cbn [obind]; [apply IH | reflexivity].
Qed.

(** X3. The scan of a grant list never clears a flag: when the scan of a
    list and the scan of the list with more grants after it both come to an
    end, every flag set by the shorter list is set by the longer one.  This
    holds of any grants, well-formed or not. *)
Theorem scan_grants_more_grants (l1 l2 : list json) (d0 d1 d2 : bool * bool) :
  scan_grants l1 d0 = Ok d1 ->
  scan_grants (l1 ++ l2) d0 = Ok d2 ->
  scan_grants l2 d1 = Ok d2
  /\ (fst d0 = true -> fst d1 = true) /\ (snd d0 = true -> snd d1 = true)
  /\ (fst d1 = true -> fst d2 = true) /\ (snd d1 = true -> snd d2 = true).
Proof.
  intros H1 H12. rewrite scan_grants_app, H1 in H12. cbn [obind] in H12.
  destruct (scan_grants_never_clears _ _ H1) as [Ha Hb].
  destruct (scan_grants_never_clears _ _ H12) as [Hc Hd].
  auto.
Qed.

Lemma scan_grants_more_grants_witness :
  let all := JDict [("URI", JStr "http://acs.amazonaws.com/groups/global/AllUsers")] in
  let read := JDict [("Grantee", all); ("Permission", JStr "READ")] in
  let write := JDict [("Grantee", all); ("Permission", JStr "WRITE_ACP")] in
  scan_grants [write] (true, false) = Ok (true, true).
Proof.
  intros all read write.
  exact (proj1 (@scan_grants_more_grants [read] [write] (false, false)
                  (true, false) (true, true) eq_refl eq_refl)).
Defined.

Lemma no_listed_permission (grant_list : list json) :
  Forall (fun g => permission_among g ["READ"; "READ_ACP"; "WRITE"; "WRITE_ACP"]
                   = false) grant_list ->
  existsb grants_public_read grant_list = false
  /\ existsb grants_public_write grant_list = false.
Proof.
  induction 1 as [| g rest Hg _ [IHr IHw]]; cbn [existsb]; [now split |].
  rewrite IHr, IHw. unfold grants_public_read, grants_public_write.
  unfold permission_among in *.
  destruct (py_getitem g "Permission") as [p |];
    [| now rewrite !andb_false_r].
  cbn [existsb] in *. rewrite !orb_false_r in *.
  rewrite !orb_false_iff in Hg. destruct Hg as (-> & -> & -> & ->).
  now rewrite !andb_false_r.
Qed.

(** X4. Rule B reacts to four permission names only.  When no grant of a
    well-formed list has the permission READ, READ_ACP, WRITE or WRITE_ACP
    (a FULL_CONTROL grant to AllUsers, say), the decision is (false, false)
    and handle_change does nothing: no alert is composed. *)
Theorem change_decision_unlisted_permissions env (record event_name : json)
    (rp : list (string * json)) (grant_value : json) :
  py_getitem record "requestParameters" = Ok (JDict rp) ->
  grant_list_of (JDict rp) = Ok grant_value ->
  forallb well_formed_grant (as_list grant_value) = true ->
  Forall (fun g => permission_among g ["READ"; "READ_ACP"; "WRITE"; "WRITE_ACP"]
                   = false) (as_list grant_value) ->
  change_decision record = Ok (false, false)
  /\ handle_change env record event_name = ret tt.
Proof.
  intros Hrp Hgrant Hwf Hnone.
  destruct (no_listed_permission Hnone) as [Hr Hw].
  assert (Hd : change_decision record = Ok (false, false))
    by (rewrite (change_decision_formula _ Hrp Hgrant Hwf); now rewrite Hr, Hw).
  split; [exact Hd |]. unfold handle_change. now rewrite Hd.
Qed.

Lemma change_decision_unlisted_permissions_witness :
  let env := {| sns_topic_arn := "arn:aws:sns:eu-west-1:42:alerts";
                py_str := fun _ => "{}";
                stdout_accepts := fun _ => true;
                s3_get_object := fun _ _ => None;
                sns_publish := fun _ _ _ => true |} in
  let all := JDict [("URI", JStr "http://acs.amazonaws.com/groups/global/AllUsers")] in
  let grant := JDict [("Grantee", all); ("Permission", JStr "FULL_CONTROL")] in
  let rp := [("bucketName", JStr "photos");
             ("AccessControlPolicy",
              JDict [("AccessControlList", JDict [("Grant", grant)])])] in
  handle_change env (JDict [("requestParameters", JDict rp)]) (JStr "PutBucketAcl")
  = ret tt.
Proof.
  intros env all grant rp.
  refine (proj2 (@change_decision_unlisted_permissions env
    (JDict [("requestParameters", JDict rp)]) (JStr "PutBucketAcl") rp grant
    eq_refl eq_refl eq_refl _)).
  repeat constructor.
Defined.

Lemma header_is_public_lookup (acl acl' : list (string * json)) (header : string) :
  lookup header acl = lookup header acl' ->
  header_is_public (JDict acl) header = header_is_public (JDict acl') header.
Proof.
  intros H. unfold header_is_public. cbn [py_in py_getitem]. unfold has_key.
  now rewrite H.
Qed.

(** X5. Rule A reads the canned ACL and the four grant headers and nothing
    else: two requests with the same x-amz-acl whose accessControlList
    mappings agree on the four headers get the same decision, whatever else
    the mappings hold (an x-amz-grant-full-control header, say). *)
Theorem create_decision_reads_four_headers (record record' : json)
    (rp rp' acl acl' : list (string * json)) :
  py_getitem record "requestParameters" = Ok (JDict rp) ->
  py_getitem record' "requestParameters" = Ok (JDict rp') ->
  lookup "x-amz-acl" rp = lookup "x-amz-acl" rp' ->
  lookup "accessControlList" rp = Some (JDict acl) ->
  lookup "accessControlList" rp' = Some (JDict acl') ->
  (forall header, In header grant_headers ->
                  lookup header acl = lookup header acl') ->
  create_decision record = create_decision record'.
Proof.
  intros Hrp Hrp' Hcanned Hacl Hacl' Hsame.
  rewrite (create_decision_unfold _ Hrp), (create_decision_unfold _ Hrp').
  unfold canned_values. rewrite Hcanned, Hacl, Hacl'. cbn zeta.
  rewrite (header_is_public_lookup acl acl' "x-amz-grant-read"),
    (header_is_public_lookup acl acl' "x-amz-grant-read-acp"),
    (header_is_public_lookup acl acl' "x-amz-grant-write"),
    (header_is_public_lookup acl acl' "x-amz-grant-write-acp");
    try reflexivity; apply Hsame; unfold grant_headers; simpl; auto.
Qed.

Lemma create_decision_reads_four_headers_witness :
  let everyone := JStr "uri=http://acs.amazonaws.com/groups/global/AllUsers" in
  let request acl := JDict [("requestParameters",
                             JDict [("bucketName", JStr "photos");
                                    ("accessControlList", JDict acl)])] in
  create_decision (request [("x-amz-grant-full-control", everyone)])
  = create_decision (request []).
Proof.
  intros everyone request.
  refine (@create_decision_reads_four_headers
            (request [("x-amz-grant-full-control", everyone)]) (request [])
            _ _ [("x-amz-grant-full-control", everyone)] []
            eq_refl eq_refl eq_refl eq_refl eq_refl _).
  intros header [<- | [<- | [<- | [<- | []]]]]; reflexivity.
Defined.

(** ** The scan of the log *)

(** X6. The scan stops at the first record that ends in an exception: the
    run is what the records before it did, then what that record did up to
    the exception, and it ends in that exception.  The records after it are
    not looked at, whatever they hold. *)
Theorem scan_stops_at_first_exception env (before after : list json)
    (record : json) (e : exn) :
  result (for_each (dispatch_record env) before) = Ok tt ->
  result (dispatch_record env record) = Raise e ->
  for_each (dispatch_record env) (before ++ record :: after) =
    (trace (for_each (dispatch_record env) before)
       ++ trace (dispatch_record env record),
     Raise e).
Proof.
  intros Hbefore Hrecord. rewrite for_each_app. cbn [for_each].
  destruct (for_each (dispatch_record env) before) as [t1 r1].
  destruct (dispatch_record env record) as [t2 r2].
  cbn [result trace fst snd] in *. subst r1 r2. reflexivity.
Qed.

Lemma scan_stops_at_first_exception_witness :
  let env := {| sns_topic_arn := "arn:aws:sns:eu-west-1:42:alerts";
                py_str := fun _ => "{}";
                stdout_accepts := fun _ => true;
                s3_get_object := fun _ _ => None;
                sns_publish := fun _ _ _ => true |} in
  let skipped := JDict [("eventSource", JStr "ec2.amazonaws.com")] in
  let broken := JDict [("eventName", JStr "PutObject")] in
  let exposed := JDict [("eventSource", JStr "s3.amazonaws.com");
                        ("eventName", JStr "PutObject");
                        ("userAgent", JStr "aws-cli/1.16");
                        ("userIdentity", JDict [("userName", JStr "ann")]);
                        ("requestParameters",
                         JDict [("bucketName", JStr "photos");
                                ("x-amz-acl", JStr "public-read")])] in
  for_each (dispatch_record env) ([skipped] ++ broken :: [exposed])
  = ([], Raise (KeyError "eventSource")).
Proof.
  intros env skipped broken exposed.
  exact (@scan_stops_at_first_exception env [skipped] [exposed] broken
           (KeyError "eventSource") eq_refl eq_refl).
Defined.

Lemma publications_app (t u : list effect) :
  publications (t ++ u) = publications t ++ publications u.
Proof.
  induction t as [| [] t IH]; simpl; auto. now rewrite IH.
Qed.

Lemma at_most_one_nil env : at_most_one env [].
Proof. split; [apply le_0_n | constructor]. Qed.

Lemma publish_alert_publications env (record event_name : json)
    (public_write public_read : bool) :
  at_most_one env
    (publications (trace (publish_alert env record event_name
                            public_write public_read))).
Proof.
  unfold publish_alert.
  destruct (ui <- py_getitem record "userIdentity" ;; py_getitem ui "userName")
    as [user_name |]; [| apply at_most_one_nil].
  rewrite (bind_lift_Ok _ eq_refl).
  destruct (get_invoke_form record) as [form |]; [| apply at_most_one_nil].
  rewrite (bind_lift_Ok _ eq_refl).
  destruct (rp <- py_getitem record "requestParameters" ;; py_getitem rp "bucketName")
    as [bucket_name |]; [| apply at_most_one_nil].
  rewrite (bind_lift_Ok _ eq_refl).
  destruct (get_object_arn record) as [object_arn |]; [| apply at_most_one_nil].
  rewrite (bind_lift_Ok _ eq_refl).
  destruct (py_str_arg event_name) as [name |]; [| apply at_most_one_nil].
  cbn [obind]. rewrite (bind_lift_Ok _ eq_refl).
  destruct (py_str_arg user_name) as [user |]; [| apply at_most_one_nil].
  cbn [obind].
  destruct (get_resource_access event_name bucket_name object_arn) as [text |];
    [| apply at_most_one_nil].
  cbn [obind]. unfold print_line. cbn [bind lift emit].
  match goal with
  | |- context [stdout_accepts env ?line] => destruct (stdout_accepts env line)
  end; cbn;
    [split; [apply le_n | repeat constructor] | apply at_most_one_nil].
Qed.

Lemma dispatch_record_publications env (record : json) :
  at_most_one env (publications (trace (dispatch_record env record))).
Proof.
  assert (Hclassify : forall (o : outcome (bool * bool)) event_name,
    at_most_one env
      (publications (trace (d <<- lift o ;;
         let (public_read, public_write) := d in
         if public_read || public_write
         then publish_alert env record event_name public_write public_read
         else ret tt)))).
  { intros [[pr pw] |] event_name; [| apply at_most_one_nil].
    rewrite (bind_lift_Ok _ eq_refl).
    destruct (pr || pw); [apply publish_alert_publications | apply at_most_one_nil]. }
  unfold dispatch_record.
  destruct (py_getitem record "eventSource") as [source |]; [| apply at_most_one_nil].
  rewrite (bind_lift_Ok _ eq_refl).
  destruct (if py_eq_str source "s3.amazonaws.com"
            then py_in "requestParameters" record else Ok false) as [[] |];
    try apply at_most_one_nil.
  rewrite (bind_lift_Ok _ eq_refl).
  destruct (py_getitem record "eventName") as [event_name |];
    [| apply at_most_one_nil].
  rewrite (bind_lift_Ok _ eq_refl).
  destruct (_ || _); [apply Hclassify |].
  destruct (_ || _); [apply Hclassify | apply at_most_one_nil].
Qed.

Lemma for_each_publications env (records : list json) :
  length (publications (trace (for_each (dispatch_record env) records)))
    <= length records
  /\ Forall (configured env)
       (publications (trace (for_each (dispatch_record env) records))).
Proof.
  induction records as [| r rest [IHn IHc]]; cbn [for_each].
  - split; [apply le_n | constructor].
  - rewrite trace_bind, publications_app, length_app.
    destruct (dispatch_record_publications env r) as [Hn Hc].
    destruct (result (dispatch_record env r)).
    + split.
      * cbn [length]. apply (Nat.add_le_mono _ 1 _ _ Hn IHn).
      * apply Forall_app. now split.
    + cbn [publications length]. rewrite Nat.add_0_r. split.
      * apply (Nat.le_trans _ 1); [exact Hn | apply le_n_S, le_0_n].
      * apply Forall_app. split; [exact Hc | constructor].
Qed.

(** X7. The scan of a log publishes at most one alert for each record of
    its Records sequence, and every alert goes to the configured topic under
    the fixed subject. *)
Theorem scan_publications_bounded env (log : list (string * json))
    (records : list json) :
  lookup "Records" log = Some (JList records) ->
  length (publications (trace (scan_log env (JDict log)))) <= length records
  /\ Forall (configured env) (publications (trace (scan_log env (JDict log)))).
Proof.
  intros Hlog.
  assert (Hscan : scan_log env (JDict log) = for_each (dispatch_record env) records).
  { unfold scan_log. rewrite py_in_dict, (has_key_lookup _ _ Hlog).
    rewrite (bind_lift_Ok _ eq_refl), (py_getitem_lookup _ _ Hlog).
    cbn [obind py_iter]. now rewrite (bind_lift_Ok _ eq_refl). }
  rewrite Hscan. apply for_each_publications.
Qed.

Lemma scan_publications_bounded_witness :
  let env := {| sns_topic_arn := "arn:aws:sns:eu-west-1:42:alerts";
                py_str := fun _ => "{}";
                stdout_accepts := fun _ => true;
                s3_get_object := fun _ _ => None;
                sns_publish := fun _ _ _ => true |} in
  let exposed := JDict [("eventSource", JStr "s3.amazonaws.com");
                        ("eventName", JStr "PutObject");
                        ("userAgent", JStr "aws-cli/1.16");
                        ("userIdentity", JDict [("userName", JStr "ann")]);
                        ("requestParameters",
                         JDict [("bucketName", JStr "photos");
                                ("x-amz-acl", JStr "public-read")])] in
  let quiet := JDict [("eventSource", JStr "ec2.amazonaws.com")] in
  length (publications (trace (scan_log env
            (JDict [("Records", JList [exposed; quiet])])))) <= 2.
Proof.
  intros env exposed quiet.
  exact (proj1 (@scan_publications_bounded env
                  [("Records", JList [exposed; quiet])] [exposed; quiet] eq_refl)).
Defined.

(** ** The resources of a record *)

Lemma first_object_arn_skips (before rest : list json) :
  Forall other_resource before ->
  first_object_arn (before ++ rest) = first_object_arn rest.
Proof.
  induction 1 as [| r before [[ty Hty] Hother] _ IH]; cbn [app first_object_arn];
    [reflexivity |].
  unfold is_object_resource in Hother. rewrite Hty in *. cbn [obind].
  now rewrite Hother.
Qed.

(** X8. The lookup of the object ARN stops at the first entry of type
    object: the entries after it are never read, so they may hold anything;
    and an entry before it whose type cannot be read ends the lookup in
    that exception even when an object entry follows. *)
Theorem first_object_arn_first_match (before after : list json) (entry : json) :
  Forall other_resource before ->
  (is_object_resource entry = true ->
   first_object_arn (before ++ entry :: after) = py_getitem entry "ARN")
  /\ (forall e, py_getitem entry "type" = Raise e ->
      first_object_arn (before ++ entry :: after) = Raise e).
Proof.
  intros Hbefore. rewrite (first_object_arn_skips _ Hbefore).
  cbn [first_object_arn]. unfold is_object_resource. split.
  - destruct (py_getitem entry "type") as [ty |]; [| discriminate].
    cbn [obind]. now intros ->.
  - now intros e ->.
Qed.

Lemma first_object_arn_first_match_witness :
  let bucket := JDict [("type", JStr "AWS::S3::Bucket");
                       ("ARN", JStr "arn:aws:s3:::photos")] in
  let object := JDict [("type", JStr "AWS::S3::Object");
                       ("ARN", JStr "arn:aws:s3:::photos/cat.png")] in
  first_object_arn ([bucket] ++ object :: [JNull; JInt 7])
  = Ok (JStr "arn:aws:s3:::photos/cat.png").
Proof.
  intros bucket object.
  refine (proj1 (@first_object_arn_first_match [bucket] [JNull; JInt 7] object _)
            eq_refl).
  repeat constructor. eexists; reflexivity.
Defined.

(** X9. An object entry whose ARN is null is taken for no object at all:
    the lookup returns None and the description is the bucket form. *)
Theorem null_arn_gives_bucket_form (items : list (string * json))
    (event_name : json) (verb bucket : string) (resources : list json)
    (entry : json) :
  event_verb event_name verb ->
  resources_of items = Some resources ->
  Forall has_type resources ->
  find is_object_resource resources = Some entry ->
  py_getitem entry "ARN" = Ok JNull ->
  resource_description (JDict items) event_name (JStr bucket)
    = Ok (verb ++ " bucket " ++ bucket)%string.
Proof.
  intros Hverb Hres Htyped Hfind Harn. unfold resource_description.
  rewrite (get_object_arn_find _ Hres Htyped), Hfind, Harn. cbn [obind].
  rewrite (event_verb_access Hverb). reflexivity.
Qed.

Lemma null_arn_gives_bucket_form_witness :
  let entry := JDict [("type", JStr "AWS::S3::Object"); ("ARN", JNull)] in
  resource_description (JDict [("resources", JList [entry])])
    (JStr "PutObject") (JStr "photos")
  = Ok "created bucket photos".
Proof.
  intros entry.
  assert (Htyped : Forall has_type [entry])
    by (repeat constructor; eexists; reflexivity).
  exact (@null_arn_gives_bucket_form [("resources", JList [entry])]
           (JStr "PutObject") "created" "photos" [entry] entry
           verb_put_object eq_refl Htyped eq_refl eq_refl).
Defined.



(** ** Records and notifications of the wrong shape *)

(** X11. What the dispatch loop does with a record it cannot read: a
    record that is no mapping ends it in a TypeError, a mapping without
    eventSource in a KeyError, and an S3 record with request parameters but
    no eventName in a KeyError; nothing was printed or published by then. *)
Theorem dispatch_record_unreadable env (record : json) :
  ((forall items, record <> JDict items) ->
   dispatch_record env record = ([], Raise TypeError))
  /\ (forall items, record = JDict items -> lookup "eventSource" items = None ->
      dispatch_record env record = ([], Raise (KeyError "eventSource")))
  /\ (forall items, record = JDict items ->
      lookup "eventSource" items = Some (JStr "s3.amazonaws.com") ->
      has_key "requestParameters" items = true ->
      lookup "eventName" items = None ->
      dispatch_record env record = ([], Raise (KeyError "eventName"))).
Proof.
  split; [| split].
  - intros Hshape. unfold dispatch_record.
    destruct record as [| | | | | | items]; try reflexivity.
    now destruct (Hshape items).
  - intros items -> Hsource. unfold dispatch_record.
    now rewrite (py_getitem_missing _ _ Hsource).
  - intros items -> Hsource Hparams Hname. unfold dispatch_record.
    rewrite (bind_lift_Ok _ (py_getitem_lookup _ _ Hsource)).
    cbn [py_eq_str]. rewrite String.eqb_refl, py_in_dict, Hparams.
    rewrite (bind_lift_Ok _ eq_refl).
    now rewrite (py_getitem_missing _ _ Hname).
Qed.

Lemma dispatch_record_unreadable_witness :
  let env := {| sns_topic_arn := "arn:aws:sns:eu-west-1:42:alerts";
                py_str := fun _ => "{}";
                stdout_accepts := fun _ => true;
                s3_get_object := fun _ _ => None;
                sns_publish := fun _ _ _ => true |} in
  dispatch_record env (JStr "s3.amazonaws.com") = ([], Raise TypeError)
  /\ dispatch_record env (JDict [("eventName", JStr "PutObject")])
     = ([], Raise (KeyError "eventSource"))
  /\ dispatch_record env (JDict [("eventSource", JStr "s3.amazonaws.com");
                                 ("requestParameters", JDict [])])
     = ([], Raise (KeyError "eventName")).
Proof.
  intros env. split; [| split].
  - refine (proj1 (@dispatch_record_unreadable env (JStr "s3.amazonaws.com")) _).
    intros items. discriminate.
  - exact (proj1 (proj2 (@dispatch_record_unreadable env
             (JDict [("eventName", JStr "PutObject")]))) _ eq_refl eq_refl).
  - exact (proj2 (proj2 (@dispatch_record_unreadable env
             (JDict [("eventSource", JStr "s3.amazonaws.com");
                     ("requestParameters", JDict [])]))) _ eq_refl eq_refl eq_refl
             eq_refl).
Defined.

Lemma bind_location_fails (before after : list json) (item : json) (e : exn)
    locals :
  Forall has_location before ->
  location_of item = Raise e ->
  bind_location (before ++ item :: after) locals = Raise e.
Proof.
  intros Hbefore Hitem. revert locals.
  induction Hbefore as [| x before [l Hx] _ IH]; intros locals; cbn [app];
    rewrite bind_location_cons.
  - now rewrite Hitem.
  - rewrite Hx. cbn [obind]. apply IH.
Qed.

(** X12. Every item of the notification is read, though only the last one
    is used: an item whose bucket name or object key cannot be read ends
    the handler in that exception, wherever the item stands in the
    sequence, before anything is printed or fetched. *)
Theorem lambda_handler_unreadable_item env (event : json)
    (before after : list json) (item : json) (e : exn) :
  py_getitem event "Records" = Ok (JList (before ++ item :: after)) ->
  Forall has_location before ->
  location_of item = Raise e ->
  lambda_handler env event = ([], Raise e).
Proof.
  intros Hrecords Hbefore Hitem. unfold lambda_handler.
  rewrite Hrecords. cbn [py_iter obind].
  now rewrite (@bind_location_fails before after item e _ Hbefore Hitem).
Qed.

Lemma lambda_handler_unreadable_item_witness :
  let env := {| sns_topic_arn := "arn:aws:sns:eu-west-1:42:alerts";
                py_str := fun _ => "{}";
                stdout_accepts := fun _ => true;
                s3_get_object := fun _ _ => Some (JDict []);
                sns_publish := fun _ _ _ => true |} in
  let good := JDict [("s3", JDict [("bucket", JDict [("name", JStr "logs")]);
                                   ("object", JDict [("key", JStr "a.json.gz")])])] in
  let bad := JDict [("s3", JDict [("bucket", JDict [("name", JStr "logs")])])] in
  lambda_handler env (JDict [("Records", JList ([] ++ bad :: [good]))])
  = ([], Raise (KeyError "object")).
Proof.
  intros env good bad.
  exact (@lambda_handler_unreadable_item env
           (JDict [("Records", JList ([] ++ bad :: [good]))]) [] [good] bad
           (KeyError "object") eq_refl (Forall_nil _) eq_refl).
Defined.

(** X13. The bucket name and the object key of the last item must be
    strings: with another value in either place the handler ends in a
    TypeError on building its first log line, before anything is printed or
    fetched. *)
Theorem lambda_handler_location_not_strings env (event : json)
    (earlier : list json) (last_item bucket key : json) :
  py_getitem event "Records" = Ok (JList (earlier ++ [last_item])) ->
  Forall has_location earlier ->
  location_of last_item = Ok (bucket, key) ->
  not_str bucket \/ not_str key ->
  lambda_handler env event = ([], Raise TypeError).
Proof.
  intros Hrecords Hearlier Hlast Hshape. unfold lambda_handler.
  rewrite Hrecords. cbn [py_iter obind].
  rewrite (bind_location_last _ _ Hearlier Hlast).
  rewrite (bind_lift_Ok _ eq_refl). cbn [fst snd read_local obind].
  destruct Hshape as [Hb | Hk].
  - destruct bucket; try reflexivity. now destruct (Hb s).
  - destruct bucket; try reflexivity.
    destruct key; try reflexivity. now destruct (Hk s0).
Qed.

Lemma lambda_handler_location_not_strings_witness :
  let env := {| sns_topic_arn := "arn:aws:sns:eu-west-1:42:alerts";
                py_str := fun _ => "{}";
                stdout_accepts := fun _ => true;
                s3_get_object := fun _ _ => Some (JDict []);
                sns_publish := fun _ _ _ => true |} in
  let item := JDict [("s3", JDict [("bucket", JDict [("name", JStr "logs")]);
                                   ("object", JDict [("key", JInt 7)])])] in
  lambda_handler env (JDict [("Records", JList ([] ++ [item]))])
  = ([], Raise TypeError).
Proof.
  intros env item.
  refine (@lambda_handler_location_not_strings env
            (JDict [("Records", JList ([] ++ [item]))]) [] item
            (JStr "logs") (JInt 7) eq_refl (Forall_nil _) eq_refl _).
  right. intros s. discriminate.
Defined.

(** ** Whole runs *)

Lemma scan_log_publications env (trail_json : json) :
  Forall (configured env) (publications (trace (scan_log env trail_json))).
Proof.
  unfold scan_log.
  destruct (py_in "Records" trail_json) as [[] |]; try constructor.
  rewrite (bind_lift_Ok _ eq_refl).
  destruct (r <- py_getitem trail_json "Records" ;; py_iter r) as [records |];
    [| constructor].
  rewrite (bind_lift_Ok _ eq_refl). apply for_each_publications.
Qed.

(** The run of [lambda_handler] past its first loop. *)
Lemma lambda_handler_cases env (event : json) :
  (trace (lambda_handler env event) = [])
  \/ exists bucket key announce rest,
       trace (lambda_handler env event)
         = Print announce :: GetObject bucket key :: rest
       /\ fetches rest = []
       /\ Forall (configured env) (publications rest).
Proof.
  unfold lambda_handler.
  destruct (records <- py_getitem event "Records" ;;
            items <- py_iter records ;; bind_location items (None, None))
    as [[bucket key] |]; [| now left].
  rewrite (bind_lift_Ok _ eq_refl).
  destruct (b <- read_local "bucket" bucket ;; b <- py_str_arg b ;;
            k <- read_local "key" key ;; k <- py_str_arg k ;; Ok (b, k))
    as [[b k] |]; [| now left].
  rewrite (bind_lift_Ok _ eq_refl). unfold print_line.
  match goal with
  | |- context [stdout_accepts env ?line] => destruct (stdout_accepts env line)
  end; [right | now left].
  exists b, k, ("S3 bucket [" ++ b ++ "] object event for [" ++ k ++ "]")%string.
  destruct (s3_get_object env b k) as [trail |].
  - exists (trace (scan_log env trail)). split; [| split].
    + unfold bind, emit, lift, remote.
      destruct (scan_log env trail); reflexivity.
    + apply scan_log_no_fetch.
    + apply scan_log_publications.
  - exists []. repeat split. constructor.
Qed.

(** X14. Whatever the notification, the environment and the log, a run of
    the handler asks S3 for at most one object, publishes to the configured
    topic under the fixed subject only, and publishes nothing unless it
    fetched a log. *)
Theorem lambda_handler_run_invariants env (event : json) :
  length (fetches (trace (lambda_handler env event))) <= 1
  /\ Forall (configured env) (publications (trace (lambda_handler env event)))
  /\ (fetches (trace (lambda_handler env event)) = [] ->
      publications (trace (lambda_handler env event)) = []).
Proof.
  destruct (lambda_handler_cases env event)
    as [-> | (bucket & key & announce & rest & -> & Hfetch & Hpub)].
  - repeat split; [apply le_0_n | constructor].
  - cbn [fetches publications]. rewrite Hfetch. repeat split.
    + apply le_n.
    + exact Hpub.
    + discriminate.
Qed.

Lemma lambda_handler_run_invariants_witness :
  let env := {| sns_topic_arn := "arn:aws:sns:eu-west-1:42:alerts";
                py_str := fun _ => "{}";
                stdout_accepts := fun _ => true;
                s3_get_object := fun _ _ => None;
                sns_publish := fun _ _ _ => true |} in
  publications (trace (lambda_handler env (JDict [("Records", JNull)]))) = [].
Proof.
  intros env.
  exact (proj2 (proj2 (lambda_handler_run_invariants env
                         (JDict [("Records", JNull)]))) eq_refl).
Defined.

(** X15. What the scan makes of a log of another shape: a mapping without
    Records, or with an empty Records sequence, is passed over in silence;
    a log that is null, and a Records field that is null, end the scan in a
    TypeError. *)
Theorem scan_log_shapes env :
  (forall log, lookup "Records" log = None -> scan_log env (JDict log) = ret tt)
  /\ (forall log, lookup "Records" log = Some (JList []) ->
      scan_log env (JDict log) = ret tt)
  /\ scan_log env JNull = ([], Raise TypeError)
  /\ (forall log, lookup "Records" log = Some JNull ->
      scan_log env (JDict log) = ([], Raise TypeError)).
Proof.
  unfold scan_log. repeat split.
  - intros log H. now rewrite py_in_dict, (has_key_missing _ _ H).
  - intros log H.
    now rewrite py_in_dict, (has_key_lookup _ _ H), (py_getitem_lookup _ _ H).
  - intros log H.
    now rewrite py_in_dict, (has_key_lookup _ _ H), (py_getitem_lookup _ _ H).
Qed.

Lemma scan_log_shapes_witness :
  let env := {| sns_topic_arn := "arn:aws:sns:eu-west-1:42:alerts";
                py_str := fun _ => "{}";
                stdout_accepts := fun _ => true;
                s3_get_object := fun _ _ => None;
                sns_publish := fun _ _ _ => true |} in
  scan_log env (JDict [("Message", JStr "digest")]) = ret tt
  /\ scan_log env (JDict [("Records", JNull)]) = ([], Raise TypeError).
Proof.
  intros env. split.
  - exact (proj1 (scan_log_shapes env) [("Message", JStr "digest")] eq_refl).
  - exact (proj2 (proj2 (proj2 (scan_log_shapes env))) [("Records", JNull)] eq_refl).
Defined.

(** ** The AllUsers marker *)

Lemma prefix_append (s rest : string) : String.prefix s (s ++ rest) = true.
Proof.
  induction s as [| c s IH]; [apply prefix_empty |].
  change (String.prefix (String c s) (String c s ++ rest))
    with (if ascii_dec c c then String.prefix s (s ++ rest)%string else false).
  destruct (ascii_dec c c) as [_ | Hn]; [exact IH | now destruct Hn].
Qed.

Lemma prefix_inv (s hay : string) :
  String.prefix s hay = true -> exists rest, hay = (s ++ rest)%string.
Proof.
  revert hay. induction s as [| c s IH]; intros hay H.
  - exists hay. reflexivity.
  - destruct hay as [| c' hay]; [discriminate |].
    change (String.prefix (String c s) (String c' hay))
      with (if ascii_dec c c' then String.prefix s hay else false) in H.
    destruct (ascii_dec c c') as [<- | _]; [| discriminate].
    destruct (IH _ H) as [rest ->]. now exists rest.
Qed.

Lemma contains_unfold (needle hay : string) :
  contains needle hay =
    String.prefix needle hay
    || match hay with
       | EmptyString => false
       | String _ rest => contains needle rest
       end.
Proof. destruct hay; reflexivity. Qed.

Lemma contains_occurrence (needle hay : string) :
  contains needle hay = true <->
  exists before after, hay = (before ++ needle ++ after)%string.
Proof.
  split.
  - induction hay as [| c hay IH]; rewrite contains_unfold; intros H;
      apply orb_true_iff in H; destruct H as [H | H]; try discriminate.
    + destruct (prefix_inv _ _ H) as [after ->]. now exists EmptyString, after.
    + destruct (prefix_inv _ _ H) as [after ->]. now exists EmptyString, after.
    + destruct (IH H) as (before & after & ->).
      now exists (String c before), after.
  - intros (before & after & ->).
    induction before as [| c before IH].
    + rewrite contains_unfold. cbn [append]. now rewrite prefix_append.
    + change (String c before ++ needle ++ after)%string
        with (String c (before ++ needle ++ after)%string).
      rewrite contains_unfold, IH. apply orb_true_r.
Qed.

(** X16. A grant header holding a string counts as public exactly when
    the marker /global/AllUsers occurs somewhere in that string, with any
    text before and after it; the test never raises on a string. *)
Theorem header_is_public_occurrence (acl : list (string * json))
    (header value : string) :
  lookup header acl = Some (JStr value) ->
  (header_is_public (JDict acl) header = Ok true <->
   exists before after, value = (before ++ "/global/AllUsers" ++ after)%string)
  /\ (header_is_public (JDict acl) header = Ok true
      \/ header_is_public (JDict acl) header = Ok false).
Proof.
  intros H. unfold header_is_public. cbn [py_in py_getitem].
  rewrite (has_key_lookup _ _ H), H. cbn [obind py_in].
  split.
  - rewrite <- (contains_occurrence all_users value). split.
    + intros E. now inversion E.
    + now intros ->.
  - destruct (contains all_users value); auto.
Qed.

Lemma header_is_public_occurrence_witness :
  header_is_public
    (JDict [("x-amz-grant-read",
             JStr "id=75aa57f0, uri=http://acs.amazonaws.com/groups/global/AllUsers")])
    "x-amz-grant-read"
  = Ok true.
Proof.
  refine (proj2 (proj1 (@header_is_public_occurrence
    [("x-amz-grant-read",
      JStr "id=75aa57f0, uri=http://acs.amazonaws.com/groups/global/AllUsers")]
    "x-amz-grant-read"
    "id=75aa57f0, uri=http://acs.amazonaws.com/groups/global/AllUsers" eq_refl)) _).
  exists "id=75aa57f0, uri=http://acs.amazonaws.com/groups", EmptyString.
  reflexivity.
Defined.

(** ** One value or a list of one *)

Lemma as_list_single (v : json) : not_list v -> as_list v = [v].
Proof. intros H. destruct v; try reflexivity. now destruct (H l). Qed.

Lemma change_decision_grants (record : json) (rp : list (string * json))
    (grant_value : json) :
  py_getitem record "requestParameters" = Ok (JDict rp) ->
  grant_list_of (JDict rp) = Ok grant_value ->
  change_decision record = scan_grants (as_list grant_value) (false, false).
Proof.
  intros Hrp Hgrant. unfold change_decision.
  rewrite Hrp. cbn [obind]. rewrite py_in_dict.
  unfold grant_list_of in Hgrant.
  destruct (py_getitem (JDict rp) "AccessControlPolicy") as [policy |] eqn:Hpolicy;
    [| discriminate Hgrant].
  destruct (py_getitem_Ok_inv _ _ Hpolicy) as (items & Hitems & Hlookup).
  inversion Hitems; subst items.
  rewrite (has_key_lookup _ _ Hlookup). cbn [obind] in *.
  destruct (py_getitem policy "AccessControlList") as [acl |];
    [| discriminate Hgrant].
  cbn [obind] in *. now rewrite Hgrant.
Qed.

(** X17. One value and a list of that one value are the same request to
    both rules: a canned ACL given as a single value, and a grant given
    alone, lead to the decision of the one-element list. *)
Theorem single_value_as_list (record record' : json)
    (rp rp' : list (string * json)) (v : json) :
  py_getitem record "requestParameters" = Ok (JDict rp) ->
  py_getitem record' "requestParameters" = Ok (JDict rp') ->
  not_list v ->
  (lookup "x-amz-acl" rp = Some v -> lookup "x-amz-acl" rp' = Some (JList [v]) ->
   lookup "accessControlList" rp = lookup "accessControlList" rp' ->
   create_decision record = create_decision record')
  /\ (grant_list_of (JDict rp) = Ok v -> grant_list_of (JDict rp') = Ok (JList [v]) ->
      change_decision record = change_decision record').
Proof.
  intros Hrp Hrp' Hv. split.
  - intros Hacl Hacl' Hlist.
    rewrite (create_decision_unfold _ Hrp), (create_decision_unfold _ Hrp').
    unfold canned_values. rewrite Hacl, Hacl', Hlist.
    now rewrite (as_list_single Hv).
  - intros Hg Hg'.
    rewrite (change_decision_grants _ Hrp Hg), (change_decision_grants _ Hrp' Hg').
    now rewrite (as_list_single Hv).
Qed.

Lemma single_value_as_list_witness :
  let request acl := JDict [("requestParameters",
                             JDict [("bucketName", JStr "photos");
                                    ("x-amz-acl", acl)])] in
  create_decision (request (JStr "public-read-write"))
  = create_decision (request (JList [JStr "public-read-write"])).
Proof.
  intros request.
  assert (Hv : not_list (JStr "public-read-write")) by (intros l; discriminate).
  exact (proj1 (@single_value_as_list (request (JStr "public-read-write"))
                  (request (JList [JStr "public-read-write"])) _ _
                  (JStr "public-read-write") eq_refl eq_refl Hv)
           eq_refl eq_refl eq_refl).
Defined.

(** ** From a record to its alert *)



(** X19. One grant sets at most one flag, because the write permissions are
    tested only when the read permissions did not match: starting from
    (false, false), a single grant of any shape never gives (true, true),
    so an alert for READ and WRITE under Rule B takes two grants. *)
Theorem grant_step_one_flag (grantee : json) (d : bool * bool) :
  grant_step (false, false) grantee = Ok d -> d <> (true, true).
Proof.
  unfold grant_step.
  destruct (py_in "Grantee" grantee) as [[] |]; cbn [obind]; try discriminate;
    [| intros H; inversion H; discriminate].
  destruct (py_getitem grantee "Grantee") as [g |]; cbn [obind]; [| discriminate].
  destruct (py_in "URI" g) as [[] |]; cbn [obind]; try discriminate.
  - destruct (uri <- py_getitem g "URI" ;; py_in all_users uri) as [[] |];
      cbn [obind]; try discriminate; [| intros H; inversion H; discriminate].
    destruct (py_getitem grantee "Permission") as [p |]; cbn [obind];
      [| discriminate].
    destruct (_ || _); [intros H; inversion H; discriminate |].
    destruct (_ || _); intros H; inversion H; discriminate.
  - intros H; inversion H; discriminate.
Qed.

Lemma grant_step_one_flag_witness :
  let all := JDict [("URI", JStr "http://acs.amazonaws.com/groups/global/AllUsers")] in
  let grant := JDict [("Grantee", all); ("Permission", JStr "READ_ACP")] in
  grant_step (false, false) grant = Ok (true, false)
  /\ (true, false) <> (true, true).
Proof.
  intros all grant. split; [reflexivity |].
  exact (@grant_step_one_flag grant (true, false) eq_refl).
Defined.
